(** * Temperature-Monitoring: the perfdata-to-chart-to-mail pipeline

    A shallow embedding of [generate_and_send_temp_graph.py] and the
    properties of its run: the regular-expression extraction of the ambient
    temperature, the per-host plotting loop, the snapshot/clear step on the
    perfdata file, the notifier and the final clean-up.

    Conventions of the embedding.
    - Text is a [string]; a character stands for a code point below 256, the
      range in which Python's [\d] is exactly [0-9].
    - The file system is a finite map from paths to contents.  A path names
      one file (two paths are the same file iff they are equal), a path can
      be read iff it is in the map, and every path can be written.
    - A Python exception is a value [Exn], an instance of [Exception] (what
      [except Exception] catches); a statement that raises leaves the world
      as it was when the exception was raised.
    - The behaviour of the third-party libraries that the script calls but
      does not define (the pandas parser, [pd.to_datetime], what [plt.plot]
      refuses, [savefig], the SMTP session) is taken as a parameter of the
      pipeline; a reference platform gives them a concrete reading on plain
      input, for the examples. *)

From Stdlib Require Import ZArith String Ascii List Lia.
From Stdlib Require Import Floats.SpecFloat.
From Stdlib Require Import Numbers.DecimalString Numbers.DecimalPos.
From stdpp Require Import base option list gmap strings pretty.

Open Scope string_scope.
Open Scope Z_scope.
Open Scope list_scope.

#[global] Arguments String.append !_ _ / : simpl nomatch.

(** ** Exceptions and results *)

Inductive ExnClass :=
  | FileNotFoundError
  | SameFileError
  | ParserError
  | ValueError
  | AttributeError
  | TypeError
  | ConversionError
  | ConnectionRefusedError
  | SMTPResponseException.

Record Exn := mkExn { exn_class : ExnClass; exn_text : string }.

(** [inl e]: the computation raised [e]; [inr x]: it returned [x]. *)
Definition Result (A : Type) : Type := Exn + A.

Definition raises {A} (r : Result A) : Prop := ∃ e, r = inl e.

Fixpoint mapM {A B} (f : A → Result B) (l : list A) : Result (list B) :=
  match l with
  | [] => inr []
  | x :: l' =>
      match f x with
      | inl e => inl e
      | inr y => match mapM f l' with
                 | inl e => inl e
                 | inr ys => inr (y :: ys)
                 end
      end
  end.

(** ** Text helpers *)

Definition is_digit (c : ascii) : bool :=
  let n := N_of_ascii c in (48 <=? n)%N && (n <=? 57)%N.

Definition digit_value (c : ascii) : Z := Z.of_N (N_of_ascii c) - 48.

Fixpoint strip_prefix (p s : string) : option string :=
  match p, s with
  | EmptyString, _ => Some s
  | String a p', String b s' =>
      if Ascii.eqb a b then strip_prefix p' s' else None
  | String _ _, EmptyString => None
  end.

Fixpoint string_forallb (f : ascii → bool) (s : string) : bool :=
  match s with
  | EmptyString => true
  | String c s' => f c && string_forallb f s'
  end.

(** One or more decimal digits. *)
Definition all_digits (s : string) : bool :=
  match s with
  | EmptyString => false
  | _ => string_forallb is_digit s
  end.

(** [str.split(',')]: every comma separates, empty pieces are kept. *)
Fixpoint split_on (sep : ascii) (acc : string) (s : string) : list string :=
  match s with
  | EmptyString => [acc]
  | String c s' =>
      if Ascii.eqb c sep then acc :: split_on sep "" s'
      else split_on sep (acc +:+ String c "") s'
  end.

Definition split (sep : ascii) (s : string) : list string := split_on sep "" s.

(** [os.path.basename]: what follows the last slash. *)
Fixpoint basename_from (acc : string) (p : string) : string :=
  match p with
  | EmptyString => acc
  | String c p' =>
      if Ascii.eqb c "/" then basename_from "" p'
      else basename_from (acc +:+ String c "") p'
  end.

Definition basename (p : string) : string := basename_from "" p.

(** ** The regular expression [Ambient_temperatureC=([\d.]+)]

    [re_search] is [re.search] for this one pattern: the leftmost position
    at which the literal key is followed by at least one character of the
    class, and there the longest run of class characters (the group is
    greedy and nothing follows it, so no backtracking changes the capture). *)

Definition key : string := "Ambient_temperatureC=".

Definition in_class (c : ascii) : bool := is_digit c || Ascii.eqb c ".".

Fixpoint take_class (s : string) : string :=
  match s with
  | String c s' => if in_class c then String c (take_class s') else ""
  | EmptyString => ""
  end.

Definition match_at (s : string) : option string :=
  match strip_prefix key s with
  | Some rest =>
      match take_class rest with
      | EmptyString => None
      | g => Some g
      end
  | None => None
  end.

Fixpoint re_search (s : string) : option string :=
  match match_at s with
  | Some g => Some g
  | None =>
      match s with
      | EmptyString => None
      | String _ s' => re_search s'
      end
  end.

(** ** [float] on a captured group

    The capture holds digits and dots only.  On such text Python's [float]
    accepts exactly the strings with at least one digit and at most one dot
    ("21.5", "21.", ".5") and returns the binary64 value nearest to the
    decimal; anything else ("1.2.3", ".") raises [ValueError]. *)

Definition float : Type := spec_float.

(** The integer nearest to [n / d], a tie going to the even one. *)
Definition round_half_even (n d : Z) : Z :=
  let q := n / d in
  match 2 * (n mod d) ?= d with
  | Lt => q
  | Eq => if Z.even q then q else q + 1
  | Gt => q + 1
  end.

(** The binade of [M / d]: the least [j >= 0] with [M / d < 2^53 * 2^j]. *)
Definition binade (M d : Z) : Z :=
  let j0 := Z.log2 M - Z.log2 d - 53 in
  if j0 <? 0 then 0
  else if M <? 2 ^ 53 * d * 2 ^ j0 then j0 else j0 + 1.

(** The binary64 number [n * 2^(j - 1074)] for [0 <= n <= 2^53], in
    canonical form; from [2^1024] on it is the infinity. *)
Definition binary64_of (n j : Z) : float :=
  match n with
  | Zpos p =>
      if n =? 2 ^ 53
      then (if j + 1 <=? 2045
            then S754_finite false (Z.to_pos (2 ^ 52)) (j + 1 - 1074)
            else S754_infinity false)
      else (if j <=? 2045 then S754_finite false p (j - 1074)
            else S754_infinity false)
  | _ => S754_zero false
  end.

Fixpoint digits_value (acc : Z) (s : string) : option Z :=
  match s with
  | EmptyString => Some acc
  | String c s' =>
      if is_digit c then digits_value (10 * acc + digit_value c) s' else None
  end.

(** Splits at the first dot: the text before it and, when there is a dot,
    the text after it. *)
Fixpoint cut_at_dot (s : string) : string * option string :=
  match s with
  | EmptyString => ("", None)
  | String c s' =>
      if Ascii.eqb c "." then ("", Some s')
      else let '(a, b) := cut_at_dot s' in (String c a, b)
  end.

(** The decimal [m / 10^k] rounded to binary64, to nearest and ties to
    even.  The decimal is [M / d] in units of [2^-1074], the least positive
    binary64 number; it is rounded to a multiple of the spacing [2^j] of
    its binade. *)
Definition float_of_decimal (m : Z) (k : nat) : float :=
  match m with
  | Zpos _ =>
      let d := 10 ^ Z.of_nat k in
      let M := m * 2 ^ 1074 in
      let j := binade M d in
      binary64_of (round_half_even M (d * 2 ^ j)) j
  | _ => S754_zero false
  end.

Definition could_not_convert (s : string) : Exn :=
  mkExn ValueError ("could not convert string to float: '" +:+ s +:+ "'").

Definition py_float (s : string) : Result float :=
  let '(ip, fp) := cut_at_dot s in
  let frac := default "" fp in
  match digits_value 0 (ip +:+ frac) with
  | Some m =>
      if (String.length ip + String.length frac =? 0)%nat
      then inl (could_not_convert s)
      else inr (float_of_decimal m (String.length frac))
  | None => inl (could_not_convert s)
  end.

(** ** The world of a run and the monad of statements *)

(** A part of a MIME message.  An attachment is kept as the bytes read from
    the file and the file name of its [Content-Disposition] header; the
    base64 transfer encoding of the bytes is not represented. *)
Inductive Part :=
  | TextPart (body subtype : string)
  | Attachment (payload filename : string).

Record Message := mkMessage {
  msg_from : string;
  msg_to : string;
  msg_subject : string;
  msg_parts : list Part
}.

Record World := mkWorld {
  fs : gmap string string;       (* path → content *)
  stdout : list string;          (* lines printed so far *)
  delivered : list Message       (* messages the relay accepted *)
}.

Definition with_fs (f : gmap string string → gmap string string) (w : World) : World :=
  mkWorld (f (fs w)) (stdout w) (delivered w).

(** A statement: from the world before it to what it returned or raised and
    the world after it. *)
Definition IO (A : Type) : Type := World → Result A * World.

Definition ret {A} (x : A) : IO A := λ w, (inr x, w).
Definition bind {A B} (c : IO A) (k : A → IO B) : IO B :=
  λ w, match c w with
       | (inl e, w') => (inl e, w')
       | (inr x, w') => k x w'
       end.
Definition lift {A} (r : Result A) : IO A := λ w, (r, w).

(** [try: c  except Exception as e: h e] *)
Definition try_except {A} (c : IO A) (h : Exn → IO A) : IO A :=
  λ w, match c w with
       | (inl e, w') => h e w'
       | (inr x, w') => (inr x, w')
       end.

Declare Scope io_scope.
Delimit Scope io_scope with io.
Notation "x ← c ; k" := (bind c (λ x, k))
  (at level 20, c at level 100, k at level 200, only parsing) : io_scope.
Notation "c ;; k" := (bind c (λ _, k))
  (at level 100, k at level 200, only parsing, right associativity) : io_scope.
Open Scope io_scope.

(** ** File operations *)

Definition no_such_file (p : string) : Exn :=
  mkExn FileNotFoundError ("[Errno 2] No such file or directory: '" +:+ p +:+ "'").

(** [open(p, 'rb').read()] and the read of [pd.read_csv(p)] *)
Definition read_file (p : string) : IO string :=
  λ w, match fs w !! p with
       | Some c => (inr c, w)
       | None => (inl (no_such_file p), w)
       end.

(** [open(p, 'w')] / [open(p, 'wb')] followed by a write of [c] and close *)
Definition write_file (p c : string) : IO unit :=
  λ w, (inr tt, with_fs (<[p := c]>) w).

(** [shutil.copyfile(src, dst)]: an existing source copied onto itself is
    refused, a missing source cannot be opened, otherwise the destination
    is created or overwritten with the source's bytes. *)
Definition copyfile (src dst : string) : IO unit :=
  λ w, match fs w !! src with
       | None => (inl (no_such_file src), w)
       | Some c =>
           if decide (src = dst)
           then (inl (mkExn SameFileError
                        ("'" +:+ src +:+ "' and '" +:+ dst +:+ "' are the same file")), w)
           else (inr tt, with_fs (<[dst := c]>) w)
       end.

(** [os.remove(p)] *)
Definition os_remove (p : string) : IO unit :=
  λ w, match fs w !! p with
       | Some _ => (inr tt, with_fs (delete p) w)
       | None => (inl (no_such_file p), w)
       end.

(** [print(line)] *)
Definition print (line : string) : IO unit :=
  λ w, (inr tt, mkWorld (fs w) (stdout w ++ [line]) (delivered w)).

(** ** The data frame *)

(** A cell as pandas holds it after type inference: missing, text, or a
    value of a numeric or boolean column. *)
Inductive Cell :=
  | NaN
  | Str (s : string)
  | Int (z : Z)
  | Float (x : float)
  | Bool (b : bool).

(** One input line under the ten column names of the [read_csv] call. *)
Record RawRecord := mkRaw {
  Timestamp : Cell;
  Host : Cell;
  Service : Cell;
  Status : Cell;
  Unknown : Cell;
  State : Cell;
  Metric1 : Cell;
  Metric2 : Cell;
  Details : Cell;
  Temperature_Detail : Cell
}.

(** A naive date-time in nanoseconds since the epoch; [None] is [NaT]. *)
Definition Datetime : Type := option Z.

(** A date-time with its zone, as [tz_localize] / [tz_convert] produce it. *)
Record Aware := mkAware { instant : Datetime; zone : string }.

(** A row once the columns ['Temperature'] and ['Date'] are added.  A missing
    temperature is the float NaN, [S754_nan]. *)
Record Reading := mkReading {
  raw : RawRecord;
  Temperature : float;
  Date : Datetime
}.

(** ** The figure *)

Record Line2D := mkLine {
  xdata : list Aware;
  ydata : list float;
  label : string;
  color : string
}.

Record Figure := mkFigure {
  figsize : Z * Z;
  lines : list Line2D;
  title : string;
  xlabel : string;
  ylabel : string;
  legend : bool;
  grid : bool;
  tight : bool
}.

(** ** The libraries the script calls *)

(** How the SMTP session of lines 109-110 ends. *)
Inductive Session :=
  (* connecting or sending failed and [e] left the [with] block: the relay
     accepted nothing *)
  | Refused (e : Exn)
  (* [sendmail] returned, the relay has the message; closing the session on
     leaving the [with] block (QUIT) then raised [closing], if anything *)
  | Accepted (closing : option Exn).

Record Platform := mkPlatform {
  (* the pandas parser on the content of a file, with the options of the
     call: tab delimiter, no header row, the ten names *)
  read_csv : string → Result (list RawRecord);
  (* pd.to_datetime(_, unit='s') on one cell *)
  to_datetime : Cell → Result Datetime;
  (* plt.plot for one more line on axes that hold the lines drawn so far:
     None when the line is drawn, Some e when the call raises e (a colour
     that is none, dates that cannot be converted to axis units, ...) *)
  plot_error : list Line2D → Line2D → option Exn;
  (* the file savefig writes for a given path argument, or its refusal *)
  savefig_target : string → Result string;
  (* the bytes of a figure saved to a given file *)
  render : string → Figure → string;
  (* the SMTP session to server:port around the one sendmail call *)
  sendmail : string → Z → string → string → Message → Session
}.

(** ** Configuration, as [main] reads it (lines 158-169) *)

Record Config := mkConfig {
  original_file : string;
  copied_file : string;
  graph_file : string;
  excel_file : string;
  smtp_server : string;
  smtp_port : Z;
  from_email : string;
  to_email : string;
  hosts_list : string;     (* config['Hosts']['list'] *)
  hosts_colors : string    (* config['Hosts']['colors'] *)
}.

(** ** A reference platform

    A concrete reading of the libraries, used by the examples.  It covers
    plain input only: lines without quote characters or carriage returns,
    at least one line, cells that are either strings of digits or text that
    pandas reads as text, columns that do not mix the two, a handful of
    named colours, chart paths ending in [.png] or without an extension.
    The properties below are proved for every platform; the reference one
    only runs the examples, on input of this kind. *)

Definition tab : ascii := ascii_of_nat 9.
Definition newline : ascii := ascii_of_nat 10.

Definition is_empty_string (s : string) : bool :=
  match s with EmptyString => true | _ => false end.

(** A row padded with empty fields up to [width]; the fields beyond the ten
    names, when the first line has more than ten, lead the row as its
    index and are not part of the record. *)
Definition fields_of (width : nat) (row : list string) : list string :=
  drop (width - 10)%nat (row ++ replicate (width - length row)%nat "").

Definition column_is_int (rows : list (list string)) (j : nat) : bool :=
  forallb (λ row, all_digits (nth j row "")) rows.

Definition cell_of (rows : list (list string)) (j : nat) (row : list string) : Cell :=
  let s := nth j row "" in
  if is_empty_string s then NaN
  else if column_is_int rows j
       then match digits_value 0 s with Some z => Int z | None => Str s end
       else Str s.

Definition record_of (rows : list (list string)) (row : list string) : RawRecord :=
  mkRaw (cell_of rows 0 row) (cell_of rows 1 row) (cell_of rows 2 row)
        (cell_of rows 3 row) (cell_of rows 4 row) (cell_of rows 5 row)
        (cell_of rows 6 row) (cell_of rows 7 row) (cell_of rows 8 row)
        (cell_of rows 9 row).

Definition too_many_fields (expected line saw : nat) : Exn :=
  mkExn ParserError
    ("Error tokenizing data. C error: Expected " +:+ pretty expected +:+
     " fields in line " +:+ pretty line +:+ ", saw " +:+ pretty saw +:+
     String newline "").

(** The non-blank lines with their line numbers in the file, cut at tabs. *)
Definition numbered_rows (content : string) : list (nat * list string) :=
  map (λ nl : nat * string, (nl.1, split tab nl.2))
      (List.filter (λ nl : nat * string, negb (is_empty_string nl.2))
                   (zip (seq 1 (length (split newline content)))
                        (split newline content))).

Definition plain_read_csv (content : string) : Result (list RawRecord) :=
  let numbered := numbered_rows content in
  let rows := map snd numbered in
  let width := Nat.max 10 (length (hd [] rows)) in
  match List.find (λ nr : nat * list string, (width <? length nr.2)%nat) numbered with
  | Some (line, row) => inl (too_many_fields width line (length row))
  | None =>
      let rows' := map (fields_of width) rows in
      inr (map (record_of rows') rows')
  end.

Definition plain_to_datetime (c : Cell) : Result Datetime :=
  match c with
  | NaN => inr None
  | Int z =>
      if (Z.abs (z * 1000000000) <? 2 ^ 63)
      then inr (Some (z * 1000000000))
      else inl (mkExn ValueError "cannot convert input with unit 's'")
  | Str s => inl (mkExn ValueError ("non convertible value " +:+ s +:+ " with the unit 's'"))
  | _ => inl (mkExn TypeError "not convertible to datetime")
  end.

Definition named_colors : list string :=
  ["blue"; "green"; "red"; "cyan"; "magenta"; "yellow"; "black"; "orange"; "purple"].

Definition plain_is_color_like (c : string) : bool :=
  existsb (String.eqb c) named_colors.

Definition is_NaT (d : Datetime) : bool :=
  match d with None => true | Some _ => false end.

(** [plt.plot] refuses a colour that is none when it makes the line, and
    dates that hold a NaT when it adds the line to the axes. *)
Definition plain_plot_error (drawn : list Line2D) (line : Line2D) : option Exn :=
  if negb (plain_is_color_like (color line))
  then Some (mkExn ValueError
               ("'" +:+ color line +:+ "' is not a valid value for color"))
  else if existsb (λ a, is_NaT (instant a)) (xdata line)
       then Some (mkExn ConversionError "Failed to convert value(s) to axis units")
       else None.

Fixpoint ends_with_png (p : string) : bool :=
  match p with
  | EmptyString => false
  | String _ p' => String.eqb p ".png" || ends_with_png p'
  end.

Definition has_no_dot (s : string) : bool :=
  string_forallb (λ c, negb (Ascii.eqb c ".")) s.

(** A path ending in [.png] is written as it is; a path whose base name has
    no extension gets [.png] appended. *)
Definition plain_savefig_target (p : string) : Result string :=
  if ends_with_png p then inr p
  else if has_no_dot (basename p) then inr (p +:+ ".png")
  else inl (mkExn ValueError "Format is not supported").

(** Stand-in bytes for the image: the labels of the lines drawn. *)
Definition plain_render (p : string) (fig : Figure) : string :=
  fold_left (λ acc l, acc +:+ label l +:+ ";") (lines fig) "PNG:".

Definition relay_accepts (server : string) (port : Z) (sender rcpt : string)
    (msg : Message) : Session := Accepted None.

Definition relay_down (server : string) (port : Z) (sender rcpt : string)
    (msg : Message) : Session :=
  Refused (mkExn ConnectionRefusedError "[Errno 111] Connection refused").

(** A relay that takes the message and then answers QUIT with an error. *)
Definition relay_fails_on_quit (server : string) (port : Z) (sender rcpt : string)
    (msg : Message) : Session :=
  Accepted (Some (mkExn SMTPResponseException "(421, b'Service not available')")).

Definition reference : Platform :=
  mkPlatform plain_read_csv plain_to_datetime plain_plot_error
             plain_savefig_target plain_render relay_accepts.

Definition reference_relay_down : Platform :=
  mkPlatform plain_read_csv plain_to_datetime plain_plot_error
             plain_savefig_target plain_render relay_down.

Definition reference_quit_fails : Platform :=
  mkPlatform plain_read_csv plain_to_datetime plain_plot_error
             plain_savefig_target plain_render relay_fails_on_quit.

(** ** The pipeline *)

Section Pipeline.

Variable P : Platform.

(** *** [send_email] (lines 74-112) *)

(** The loop of lines 99-105: each listed file is opened and read, and its
    content attached under its base name. *)
Fixpoint attach_files (attachments : list string) (parts : list Part)
    : IO (list Part) :=
  match attachments with
  | [] => ret parts
  | file_path :: rest =>
      payload ← read_file file_path;
      attach_files rest (parts ++ [Attachment payload (basename file_path)])
  end.

(** The body of the [try] (lines 109-110): one SMTP session.  A message
    the relay accepted stays delivered when closing the session raises. *)
Definition smtp_session (server : string) (port : Z) (sender rcpt : string)
    (msg : Message) : IO unit :=
  λ w, match sendmail P server port sender rcpt msg with
       | Refused e => (inl e, w)
       | Accepted closing =>
           let w' := mkWorld (fs w) (stdout w) (delivered w ++ [msg]) in
           match closing with
           | None => (inr tt, w')
           | Some e => (inl e, w')
           end
       end.

Definition send_email (subject body : string) (attachments : list string)
    (from_email to_email smtp_server : string) (smtp_port : Z) : IO unit :=
  parts ← attach_files attachments [TextPart body "plain"];
  let msg := mkMessage from_email to_email subject parts in
  try_except (smtp_session smtp_server smtp_port from_email to_email msg)
             (λ e, print ("Failed to send email: " +:+ exn_text e)).

(** *** [generate_graph] (lines 115-146) *)

Definition is_host (host : string) (c : Cell) : bool :=
  match c with
  | Str s => String.eqb s host
  | _ => false
  end.

(** [data[data['Host'] == host]] *)
Definition host_rows (data : list Reading) (host : string) : list Reading :=
  List.filter (λ r, is_host host (Host (raw r))) data.

Definition tz_localize (tz : string) (d : Datetime) : Aware := mkAware d tz.
Definition tz_convert (tz : string) (a : Aware) : Aware := mkAware (instant a) tz.

(** [plt.plot(x, y, label=..., color=...)]: a new line on the axes, unless
    matplotlib refuses the call. *)
Definition plot (x : list Aware) (y : list float) (lbl col : string)
    (drawn : list Line2D) : Result (list Line2D) :=
  match plot_error P drawn (mkLine x y lbl col) with
  | None => inr (drawn ++ [mkLine x y lbl col])
  | Some e => inl e
  end.

(** The loop of lines 132-137 over the zipped pairs. *)
Fixpoint plot_hosts (data : list Reading) (pairs : list (string * string))
    (rome_tz : string) (drawn : list Line2D) : Result (list Line2D) :=
  match pairs with
  | [] => inr drawn
  | (host, col) :: rest =>
      let host_data := host_rows data host in
      match host_data with
      | [] => plot_hosts data rest rome_tz drawn
      | _ =>
          let dates := map (λ r, tz_convert rome_tz (tz_localize "UTC" (Date r)))
                           host_data in
          match plot dates (map Temperature host_data) host col drawn with
          | inl e => inl e
          | inr drawn' => plot_hosts data rest rome_tz drawn'
          end
      end
  end.

Definition degree_sign : string := String (ascii_of_nat 176) "".

Definition generate_graph (data : list Reading) (hosts colors : list string)
    (graph_file : string) (rome_tz : string) : IO unit :=
  drawn ← lift (plot_hosts data (zip hosts colors) rome_tz []);
  let fig := mkFigure (10, 6) drawn "CED Temperature" "Time"
                      ("Temperature (" +:+ degree_sign +:+ "C)") true true true in
  target ← lift (savefig_target P graph_file);
  write_file target (render P target fig).

(** *** The extraction of line 186 *)

Definition is_str (c : Cell) : bool :=
  match c with Str _ => true | _ => false end.

(** [.str]: only a column of text has the accessor.  The parser types a
    column as text exactly when one of its cells is text; a frame without
    rows has text columns. *)
Definition str_accessor (col : list Cell) : Result (list Cell) :=
  match col with
  | [] => inr col
  | _ => if existsb is_str col then inr col
         else inl (mkExn AttributeError "Can only use .str accessor with string values!")
  end.

(** [.str.extract(pattern)] on one cell: the captured group, or missing. *)
Definition str_extract (c : Cell) : option string :=
  match c with
  | Str s => re_search s
  | _ => None
  end.

(** [.astype(float)] on one extracted cell. *)
Definition astype_float (g : option string) : Result float :=
  match g with
  | Some s => py_float s
  | None => inr S754_nan
  end.

Definition extract_temperature (c : Cell) : Result float :=
  astype_float (str_extract c).

Definition extract_temperatures (col : list Cell) : Result (list float) :=
  match str_accessor col with
  | inl e => inl e
  | inr col' => mapM extract_temperature col'
  end.

(** *** [main] (lines 149-203) *)

(** Lines 171-175: copy the perfdata file aside, then clear it. *)
Definition snapshot_and_clear (cfg : Config) : IO unit :=
  copyfile (original_file cfg) (copied_file cfg);;
  write_file (original_file cfg) "".

(** Lines 177-188: load the copy and add the two derived columns. *)
Definition load_and_process (cfg : Config) : IO (list Reading) :=
  content ← read_file (copied_file cfg);
  data ← lift (read_csv P content);
  temps ← lift (extract_temperatures (map Temperature_Detail data));
  dates ← lift (mapM (to_datetime P) (map Timestamp data));
  ret (zip_with (λ rt d, mkReading rt.1 rt.2 d) (zip data temps) dates).

Definition subject : string := "CED Temperature Report".

Definition body : string :=
  "Hello Team," +:+ String newline (String newline
  "Please find attached the temperature graph and data.") +:+
  String newline (String newline "Best Regards,") +:+
  String newline "Monitoring Team".

(** Lines 198-203: send, then remove the two temporary files. *)
Definition notify_and_cleanup (cfg : Config) : IO unit :=
  send_email subject body [graph_file cfg; copied_file cfg]
             (from_email cfg) (to_email cfg) (smtp_server cfg) (smtp_port cfg);;
  os_remove (copied_file cfg);;
  os_remove (graph_file cfg).

Definition main (cfg : Config) : IO unit :=
  let hosts := split "," (hosts_list cfg) in
  let colors := split "," (hosts_colors cfg) in
  snapshot_and_clear cfg;;
  data ← load_and_process cfg;
  generate_graph data hosts colors (graph_file cfg) "Europe/Rome";;
  notify_and_cleanup cfg.

End Pipeline.

(** ** Worlds and inputs of the examples *)

Definition cfg0 : Config :=
  mkConfig "/var/nagios/service-perfdata" "/tmp/perfdata.copy" "/tmp/temp.png"
           "/tmp/temp.xlsx" "smtp.example.com" 25 "nagios@example.com"
           "team@example.com" "srv1,srv2" "blue,green".

Definition perf_line (ts host blob : string) : string :=
  ts +:+ String tab host +:+ String tab "Ambient" +:+ String tab "OK" +:+
  String tab "x" +:+ String tab "HARD" +:+ String tab "m1" +:+ String tab "m2" +:+
  String tab "ok" +:+ String tab blob +:+ String newline "".

Definition world_with (content : string) : World :=
  mkWorld {[ original_file cfg0 := content ]} [] [].

(** A run of the examples: two readings of [srv1], one record of [srv2]
    without a temperature token. *)
Definition perfdata0 : string :=
  perf_line "1700000000" "srv1" "Ambient_temperatureC=20.0;;;" +:+
  perf_line "1700000060" "srv1" "Ambient_temperatureC=21.5;;;" +:+
  perf_line "1700000120" "srv2" "no token".


(** The text of a decimal numeral, digit by digit; [Nil] is the empty
    text. *)
Definition numeral_text (u : Decimal.uint) : string := NilEmpty.string_of_uint u.

(** [x] is the non-negative binary64 number [N * 2^-1074]: a zero, a finite
    number in canonical form, or the infinity, which stands for every value
    from [2^1024] on. *)
Definition denotes (x : float) (N : Z) : Prop :=
  match x with
  | S754_zero false => N = 0
  | S754_finite false mx ex =>
      bounded 53 1024 mx ex = true ∧ Z.pos mx * 2 ^ (ex + 1074) = N
  | S754_infinity false => 2 ^ 2098 ≤ N
  | _ => False
  end.

(** [x] is the decimal [m / 10^k] rounded to the nearest binary64 number,
    ties to even.  In units of [2^-1074] the decimal is [M / d]; [2^j] is
    the spacing of the binary64 numbers around it ([j = 0] in the subnormal
    range) and [n] the multiple of the spacing nearest to it, the even one
    when two are as near. *)
Definition rounds_to (m : Z) (k : nat) (x : float) : Prop :=
  ∃ j n : Z,
    let d := 10 ^ Z.of_nat k in
    let M := m * 2 ^ 1074 in
    let D := d * 2 ^ j in
    0 ≤ j
    ∧ (j = 0 ∨ 2 ^ 52 * D ≤ M)
    ∧ M < 2 ^ 53 * D
    ∧ 2 * Z.abs (n * D - M) ≤ D
    ∧ (2 * Z.abs (n * D - M) = D → Z.even n = true)
    ∧ denotes x (n * 2 ^ j).

(** [x] is the binary64 number nearest to the decimal written [ip.frac]:
    the integer part [ip] plus [frac / 10^(number of digits of frac)]. *)
Definition nearest_to_decimal (ip frac : Decimal.uint) (x : float) : Prop :=
  rounds_to (Z.of_uint ip * 10 ^ Z.of_nat (Decimal.nb_digits frac) + Z.of_uint frac)
            (Decimal.nb_digits frac) x.

(** The binary64 number [y] is the decimal written [ip.frac], exactly. *)
Definition is_decimal (ip frac : Decimal.uint) (y : float) : Prop :=
  ∃ N, denotes y N
       ∧ N * 10 ^ Z.of_nat (Decimal.nb_digits frac)
         = (Z.of_uint ip * 10 ^ Z.of_nat (Decimal.nb_digits frac) + Z.of_uint frac)
           * 2 ^ 1074.

(** The platform [P] with another relay behind it. *)
Definition with_relay (P : Platform)
    (relay : string → Z → string → string → Message → Session) : Platform :=
  mkPlatform (read_csv P) (to_datetime P) (plot_error P)
             (savefig_target P) (render P) relay.

(** A temperature is present when it is not the float NaN. *)
Definition is_present (x : float) : bool :=
  match x with S754_nan => false | _ => true end.

(** The line the loop of [generate_graph] draws for one pair. *)
Definition series_of (data : list Reading) (rome_tz : string)
    (pair : string * string) : Line2D :=
  let host_data := host_rows data pair.1 in
  mkLine (map (λ r, tz_convert rome_tz (tz_localize "UTC" (Date r))) host_data)
         (map Temperature host_data) pair.1 pair.2.

Definition has_rows (data : list Reading) (pair : string * string) : bool :=
  match host_rows data pair.1 with [] => false | _ => true end.

(** The lines on the axes once the pairs of a list have been gone through:
    one per pair whose host has rows. *)
Definition lines_of (data : list Reading) (rome_tz : string)
    (pairs : list (string * string)) : list Line2D :=
  map (series_of data rome_tz) (List.filter (has_rows data) pairs).

(** matplotlib accepts every plot call of the loop over [pairs]: for each
    pair whose host has rows, the call for its line on the axes as the
    pairs before it left them. *)
Definition plots_accepted (P : Platform) (data : list Reading) (rome_tz : string)
    (pairs : list (string * string)) : Prop :=
  ∀ i pair,
    pairs !! i = Some pair → has_rows data pair = true →
    plot_error P (lines_of data rome_tz (take i pairs)) (series_of data rome_tz pair)
    = None.

(** The pairs of two lists position by position: for each index of the
    first list at which the second has an entry too, the two entries. *)
Definition pairs_by_index (hosts colors : list string) : list (string * string) :=
  omap (λ i, match hosts !! i, colors !! i with
             | Some h, Some c => Some (h, c)
             | _, _ => None
             end)
       (seq 0 (length hosts)).

(** The series as the specification words them: per listed host with at
    least one present temperature, a line through its present readings
    only. *)
Definition present_rows (data : list Reading) (host : string) : list Reading :=
  List.filter (λ r, is_present (Temperature r)) (host_rows data host).

Definition series_as_specified (data : list Reading) (rome_tz : string)
    (hosts colors : list string) : list Line2D :=
  map (λ pair : string * string,
         mkLine (map (λ r, tz_convert rome_tz (tz_localize "UTC" (Date r)))
                     (present_rows data pair.1))
                (map Temperature (present_rows data pair.1)) pair.1 pair.2)
      (List.filter (λ pair : string * string,
                      match present_rows data pair.1 with [] => false | _ => true end)
                   (zip hosts colors)).

(** A record of [host] whose detail blob has no temperature token, as the
    pipeline holds it after line 188. *)
Definition reading_without_token (host : string) (ts : Z) : Reading :=
  mkReading (mkRaw (Int ts) (Str host) (Str "Ambient") (Str "OK") (Str "x")
                   (Str "HARD") (Str "m1") (Str "m2") (Str "ok") (Str "no token"))
            S754_nan (Some (ts * 1000000000)).

(** A record of [host] with no timestamp: its date is NaT. *)
Definition reading_without_date (host : string) : Reading :=
  mkReading (mkRaw NaN (Str host) (Str "Ambient") (Str "OK") (Str "x")
                   (Str "HARD") (Str "m1") (Str "m2") (Str "ok")
                   (Str "Ambient_temperatureC=20.0;;;"))
            (S754_finite false 5629499534213120 (-48)) None.

(** Three records of [srv1]: 20.0, 21.0, and one without a token. *)
Definition perfdata_scenario : string :=
  perf_line "1700000000" "srv1" "Ambient_temperatureC=20.0;;;" +:+
  perf_line "1700000060" "srv1" "Ambient_temperatureC=21.0;;;" +:+
  perf_line "1700000120" "srv1" "no token".

(** An input of the wrong shape: the second line has eleven fields. *)
Definition perfdata_wide : string :=
  perf_line "1700000000" "srv1" "Ambient_temperatureC=20.0;;;" +:+
  "1700000060" +:+ String tab "srv1" +:+ String tab "Ambient" +:+ String tab "OK" +:+
  String tab "x" +:+ String tab "HARD" +:+ String tab "m1" +:+ String tab "m2" +:+
  String tab "ok" +:+ String tab "Ambient_temperatureC=21.5;;;" +:+
  String tab "extra" +:+ String newline "".

(** The configuration [cfg0] with a chart path that has no extension. *)
Definition cfg_no_extension : Config :=
  mkConfig "/var/nagios/service-perfdata" "/tmp/perfdata.copy" "/tmp/temp"
           "/tmp/temp.xlsx" "smtp.example.com" 25 "nagios@example.com"
           "team@example.com" "srv1,srv2" "blue,green".

(** The paths a run can write or remove. *)
Definition written_paths (P : Platform) (cfg : Config) : list string :=
  [original_file cfg; copied_file cfg; graph_file cfg] ++
  match savefig_target P (graph_file cfg) with
  | inr target => [target]
  | inl _ => []
  end.

(** No part of the key that starts after its first character begins an
    occurrence of the key: read against a text that starts with the key,
    each remainder either fails or leaves a text with no class character
    in front. *)
Definition no_overlap (p2 : string) : Prop :=
  ∀ x, match strip_prefix p2 (key +:+ x) with
       | Some r => take_class r = ""
       | None => True
       end.

(** A statement leaves every file outside [paths] as it found it, whether
    it returns or raises. *)
Definition touches_only {A} (paths : list string) (c : IO A) : Prop :=
  ∀ w q, q ∉ paths → fs (c w).2 !! q = fs w !! q.

(** ** Definitions for the properties of the surrounding code *)

(** How many characters of a text satisfy a test. *)
Fixpoint count_char (f : ascii → bool) (s : string) : nat :=
  match s with
  | EmptyString => 0%nat
  | String c s' => ((if f c then 1 else 0) + count_char f s')%nat
  end.

Definition is_dot (c : ascii) : bool := Ascii.eqb c ".".

(** [sep.join(pieces)] *)
Fixpoint join (sep : ascii) (pieces : list string) : string :=
  match pieces with
  | [] => ""
  | [p] => p
  | p :: rest => p +:+ String sep (join sep rest)
  end.

(** The text [part] occurs somewhere in [s]. *)
Definition occurs_in (part s : string) : Prop :=
  ∃ pre post, s = pre +:+ part +:+ post.

Definition is_slash (c : ascii) : bool := Ascii.eqb c "/".

(** The temperature a run records for a row, read off the result of the
    load step (the empty frame when the step raised). *)
Definition loaded (r : Result (list Reading)) : list Reading :=
  match r with
  | inr readings => readings
  | inl _ => []
  end.


(** ** Start-up: [load_config] (lines 43-71) and lines 150-169 of [main]

    The run as the interpreter starts it, once [argparse] has produced the
    path of the configuration file.  What [configparser] makes of the text
    of a file, what a lookup [config[section][option]] returns (after
    defaults and interpolation), and what [int] makes of a text are taken
    from the library; the order of the statements is the script's. *)

Inductive StartupError :=
  | KeyError (key : string)        (* a section or an option is missing *)
  | StartupRaised (e : Exn).       (* any other exception *)

(** The parsed configuration, as the mapping it offers. *)
Record ConfigParser := mkConfigParser {
  getitem : string → string → StartupError + string
}.

Record ConfigLibrary := mkConfigLibrary {
  (* the parser on the text of a configuration file *)
  ini_parse : string → StartupError + ConfigParser;
  (* int(text) *)
  py_int : string → StartupError + Z
}.

(** A fresh [ConfigParser()]: it has no section. *)
Definition empty_config : ConfigParser :=
  mkConfigParser (λ section option, inl (KeyError section)).

(** [load_config]: [config.read] skips a file it cannot open. *)
Definition load_config (L : ConfigLibrary) (config_file : string) (w : World)
    : StartupError + ConfigParser :=
  match fs w !! config_file with
  | Some text => ini_parse L text
  | None => inr empty_config
  end.

Definition and_then {A B} (r : StartupError + A) (k : A → StartupError + B)
    : StartupError + B :=
  match r with
  | inl e => inl e
  | inr x => k x
  end.

(** Lines 158-169, in their order. *)
Definition read_options (L : ConfigLibrary) (config : ConfigParser)
    : StartupError + Config :=
  and_then (getitem config "Paths" "original_file") (λ original_file,
  and_then (getitem config "Paths" "copied_file") (λ copied_file,
  and_then (getitem config "Paths" "graph_file") (λ graph_file,
  and_then (getitem config "Paths" "excel_file") (λ excel_file,
  and_then (getitem config "Email" "smtp_server") (λ smtp_server,
  and_then (getitem config "Email" "smtp_port") (λ port_text,
  and_then (py_int L port_text) (λ smtp_port,
  and_then (getitem config "Email" "from_email") (λ from_email,
  and_then (getitem config "Email" "to_email") (λ to_email,
  and_then (getitem config "Hosts" "list") (λ hosts_list,
  and_then (getitem config "Hosts" "colors") (λ hosts_colors,
  inr (mkConfig original_file copied_file graph_file excel_file smtp_server
                smtp_port from_email to_email hosts_list hosts_colors)))))))))))).

(** The whole of [main], from the configuration file on. *)
Definition run_script (L : ConfigLibrary) (P : Platform) (config_file : string)
    (w : World) : (StartupError + Result unit) * World :=
  match and_then (load_config L config_file w) (read_options L) with
  | inl e => (inl e, w)
  | inr cfg => let '(r, w') := main P cfg w in (inr r, w')
  end.

(** A configuration library for the examples: the text of the file is not
    looked at, every option has the value [cfg0] gives it, and the port is
    read by [digits_value]. *)
Definition sample_getitem (section option : string) : StartupError + string :=
  if String.eqb section "Paths" then
    if String.eqb option "original_file" then inr (original_file cfg0)
    else if String.eqb option "copied_file" then inr (copied_file cfg0)
    else if String.eqb option "graph_file" then inr (graph_file cfg0)
    else if String.eqb option "excel_file" then inr (excel_file cfg0)
    else inl (KeyError option)
  else if String.eqb section "Email" then
    if String.eqb option "smtp_server" then inr (smtp_server cfg0)
    else if String.eqb option "smtp_port" then inr "25"
    else if String.eqb option "from_email" then inr (from_email cfg0)
    else if String.eqb option "to_email" then inr (to_email cfg0)
    else inl (KeyError option)
  else if String.eqb section "Hosts" then
    if String.eqb option "list" then inr (hosts_list cfg0)
    else if String.eqb option "colors" then inr (hosts_colors cfg0)
    else inl (KeyError option)
  else inl (KeyError section).

Definition sample_library : ConfigLibrary :=
  mkConfigLibrary
    (λ text, inr (mkConfigParser sample_getitem))
    (λ text, match all_digits text, digits_value 0 text with
             | true, Some z => inr z
             | _, _ => inl (StartupRaised
                              (mkExn ValueError "invalid literal for int() with base 10"))
             end).

(** * Properties *)

(** ** Text and the regular expression *)

Lemma strip_prefix_app p x : strip_prefix p (p +:+ x) = Some x.
Proof.
  induction p as [|a p IH]; simpl; [done|].
  by rewrite Ascii.eqb_refl.
Qed.

Lemma append_nil_r (a : string) : a +:+ "" = a.
Proof. induction a; simpl; congruence. Qed.


Lemma is_digit_not_dot c : is_digit c = true → Ascii.eqb c "." = false.
Proof.
  intros H. destruct (Ascii.eqb_spec c "."); [subst; discriminate|done].
Qed.

Lemma take_class_app (g x : string) :
  string_forallb in_class g = true → take_class (g +:+ x) = g +:+ take_class x.
Proof.
  induction g as [|c g IH]; simpl; [done|].
  intros [Hc Hg]%andb_prop. rewrite Hc. by rewrite IH.
Qed.


Lemma string_forallb_app f (a b : string) :
  string_forallb f (a +:+ b) = string_forallb f a && string_forallb f b.
Proof. induction a as [|c a IH]; simpl; [done|]. by rewrite IH, andb_assoc. Qed.


(** What the search sees of a text [a] followed by more text [b]: the key
    read inside [a], or [a] a part of the key that continues in [b]. *)
Lemma strip_prefix_split p a b :
  strip_prefix p (a +:+ b) =
  match strip_prefix p a with
  | Some r => Some (r +:+ b)
  | None => match strip_prefix a p with
            | Some p2 => strip_prefix p2 b
            | None => None
            end
  end.
Proof.
  revert a. induction p as [|c p IH]; intros [|d a]; simpl; try done.
  destruct (Ascii.eqb_spec c d) as [->|Hne].
  - rewrite Ascii.eqb_refl. apply IH.
  - by destruct (Ascii.eqb_spec d c) as [->|].
Qed.

Lemma key_remainders a p2 :
  a ≠ "" → strip_prefix a key = Some p2 → no_overlap p2.
Proof.
  intros Ha H. unfold key in H.
  repeat match type of H with
  | strip_prefix ?a (String ?c ?k) = Some _ =>
      destruct a as [|? a]; simpl in H;
      [ first [congruence | injection H as <-; intros x; exact I || reflexivity]
      | destruct (Ascii.eqb _ c); [|discriminate] ]
  end; try congruence.
  destruct a; simpl in H; [|discriminate].
  injection H as <-. intros x. reflexivity.
Qed.

Lemma re_search_unfold s :
  re_search s =
  match match_at s with
  | Some g => Some g
  | None => match s with "" => None | String _ s' => re_search s' end
  end.
Proof. by destruct s. Qed.

Lemma take_class_key x : take_class (key +:+ x) = "".
Proof. reflexivity. Qed.

Lemma match_at_before_key a x :
  a ≠ "" → match_at a = None → match_at (a +:+ key +:+ x) = None.
Proof.
  intros Ha. unfold match_at. rewrite strip_prefix_split.
  destruct (strip_prefix key a) as [r|] eqn:Hr.
  - destruct r as [|c r]; [intros _; reflexivity|].
    simpl. by destruct (in_class c).
  - intros _. destruct (strip_prefix a key) as [p2|] eqn:Hp2; [|done].
    pose proof (key_remainders a p2 Ha Hp2 x) as Hx.
    destruct (strip_prefix p2 (key +:+ x)); [by rewrite Hx|done].
Qed.

(** A text without a match, put in front, does not change what is found at
    a later occurrence of the key. *)
Lemma re_search_skips pre x :
  re_search pre = None → re_search (pre +:+ key +:+ x) = re_search (key +:+ x).
Proof.
  induction pre as [|c pre IH]; [done|].
  rewrite (re_search_unfold (String c pre)).
  destruct (match_at (String c pre)) eqn:Hm; [done|]. intros Hpre.
  rewrite re_search_unfold, match_at_before_key by done.
  simpl. by apply IH.
Qed.

Lemma re_search_at_key g x :
  g ≠ "" → string_forallb in_class g = true → take_class x = "" →
  re_search (key +:+ g +:+ x) = Some g.
Proof.
  intros Hg Hcls Hx. rewrite re_search_unfold. unfold match_at.
  rewrite strip_prefix_app, take_class_app, Hx, append_nil_r by done.
  by destruct g.
Qed.

(** The capture is never empty and holds class characters only. *)
Lemma take_class_sound s : string_forallb in_class (take_class s) = true.
Proof.
  induction s as [|c s IH]; simpl; [done|].
  destruct (in_class c) eqn:Hc; simpl; [by rewrite Hc|done].
Qed.

Lemma re_search_class s g :
  re_search s = Some g → g ≠ "" ∧ string_forallb in_class g = true.
Proof.
  induction s as [|c s IH]; rewrite re_search_unfold; unfold match_at.
  - intros H. vm_compute in H. discriminate.
  - destruct (strip_prefix key (String c s)) as [r|]; [|by auto].
    pose proof (take_class_sound r) as Hr.
    destruct (take_class r) eqn:Ht; [by auto|].
    intros [= <-]. by split.
Qed.

(** ** [float] on number literals *)


Lemma cut_at_dot_fraction ip f :
  string_forallb is_digit ip = true →
  cut_at_dot (ip +:+ String "." f) = (ip, Some f).
Proof.
  induction ip as [|c ip IH]; simpl; [done|].
  intros [Hc Hip]%andb_prop. by rewrite (is_digit_not_dot _ Hc), IH.
Qed.

Lemma digits_value_total s acc :
  string_forallb is_digit s = true → is_Some (digits_value acc s).
Proof.
  revert acc. induction s as [|c s IH]; intros acc; simpl; [by eauto|].
  intros [Hc Hs]%andb_prop. rewrite Hc. by apply IH.
Qed.

(** *** Rounding to binary64 *)

Lemma round_half_even_spec n d :
  0 < d →
  let r := round_half_even n d in
  2 * Z.abs (r * d - n) ≤ d ∧ (2 * Z.abs (r * d - n) = d → Z.even r = true).
Proof.
  intros Hd. unfold round_half_even.
  pose proof (Z.div_mod n d ltac:(lia)) as Hdm.
  pose proof (Z.mod_pos_bound n d Hd) as Hr.
  set (q := n / d) in *. set (r := n mod d) in *.
  destruct (Z.compare_spec (2 * r) d) as [He|Hl|Hg]; cbn zeta.
  - destruct (Z.even q) eqn:Hq.
    + split; [lia|done].
    + split; [lia|]. intros _. rewrite Z.even_add, Hq. done.
  - split; [lia|]. lia.
  - split; [lia|]. lia.
Qed.

Lemma round_half_even_bounds n d lo hi :
  0 < d → lo * d ≤ n → n ≤ hi * d → lo ≤ round_half_even n d ≤ hi.
Proof.
  intros Hd Hlo Hhi. unfold round_half_even.
  pose proof (Z.div_mod n d ltac:(lia)) as Hdm.
  pose proof (Z.mod_pos_bound n d Hd) as Hr.
  set (q := n / d) in *. set (r := n mod d) in *.
  assert (lo ≤ q) by nia.
  assert (q ≤ hi) by nia.
  assert (0 < r → q + 1 ≤ hi) by nia.
  destruct (Z.compare_spec (2 * r) d); [destruct (Z.even q)|..]; lia.
Qed.

Lemma binade_spec M d :
  0 < M → 0 < d →
  let j := binade M d in
  0 ≤ j ∧ (j = 0 ∨ 2 ^ 52 * (d * 2 ^ j) ≤ M) ∧ M < 2 ^ 53 * (d * 2 ^ j).
Proof.
  intros HM Hd. unfold binade.
  destruct (Z.log2_spec M HM) as [Ha1 Ha2].
  destruct (Z.log2_spec d Hd) as [Hb1 Hb2].
  pose proof (Z.log2_nonneg M) as Ha0. pose proof (Z.log2_nonneg d) as Hb0.
  set (a := Z.log2 M) in *. set (b := Z.log2 d) in *.
  destruct (Z.ltb_spec (a - b - 53) 0) as [Hneg|Hnn]; cbn zeta.
  - split; [lia|]. split; [by left|].
    assert (2 ^ Z.succ a ≤ 2 ^ (b + 53)) by (apply Z.pow_le_mono_r; lia).
    rewrite Z.pow_add_r in * by lia. change (2 ^ 0) with 1. lia.
  - set (j0 := a - b - 53) in *.
    assert (0 < 2 ^ j0) by (apply Z.pow_pos_nonneg; lia).
    assert (0 < 2 ^ b) by (apply Z.pow_pos_nonneg; lia).
    assert (Ea : 2 ^ a = 2 ^ b * 2 ^ 53 * 2 ^ j0).
    { rewrite <- !Z.pow_add_r by lia. f_equal. lia. }
    assert (Eb : 2 ^ Z.succ b = 2 * 2 ^ b) by (rewrite Z.pow_succ_r; lia).
    assert (Ea' : 2 ^ Z.succ a = 2 * 2 ^ a) by (rewrite Z.pow_succ_r; lia).
    assert (Ej : 2 ^ (j0 + 1) = 2 * 2 ^ j0) by (rewrite Z.pow_add_r; lia).
    destruct (Z.ltb_spec M (2 ^ 53 * d * 2 ^ j0)) as [Hlt|Hge].
    + split; [lia|]. split; [|lia]. right.
      change (2 ^ 53) with (2 * 2 ^ 52) in Ea. nia.
    + split; [lia|]. rewrite Ej. split; [right; change (2 ^ 53) with (2 * 2 ^ 52) in Hge; lia|].
      nia.
Qed.

Lemma digits2_pos_size p : digits2_pos p = Pos.size p.
Proof. induction p; simpl; congruence. Qed.

Lemma digits2_pos_bounds p :
  2 ^ (Z.pos (digits2_pos p) - 1) ≤ Z.pos p < 2 ^ Z.pos (digits2_pos p).
Proof.
  rewrite digits2_pos_size. split.
  - pose proof (Pos.size_le p) as H.
    assert (2 ^ Z.pos (Pos.size p) ≤ Z.pos p~0) as H'.
    { rewrite <- Pos2Z.inj_pow. exact H. }
    replace (Z.pos (Pos.size p)) with (Z.succ (Z.pos (Pos.size p) - 1)) in H' by lia.
    rewrite Z.pow_succ_r in H' by lia. lia.
  - pose proof (Pos.size_gt p) as H.
    rewrite <- Pos2Z.inj_pow. exact H.
Qed.

Lemma digits2_pos_eq p n :
  0 < n → 2 ^ (n - 1) ≤ Z.pos p < 2 ^ n → Z.pos (digits2_pos p) = n.
Proof.
  intros Hn [Hlo Hhi]. destruct (digits2_pos_bounds p) as [Hl Hh].
  set (s := Z.pos (digits2_pos p)) in *.
  assert (0 < s) by (subst s; lia).
  destruct (Z.lt_trichotomy s n) as [Hlt|[->|Hgt]]; [|done|].
  - assert (2 ^ s ≤ 2 ^ (n - 1)) by (apply Z.pow_le_mono_r; lia). lia.
  - assert (2 ^ n ≤ 2 ^ (s - 1)) by (apply Z.pow_le_mono_r; lia). lia.
Qed.

Lemma bounded_iff mx ex :
  bounded 53 1024 mx ex = true ↔
  ex ≤ 971 ∧ ((ex = -1074 ∧ Z.pos mx < 2 ^ 53)
              ∨ (-1074 < ex ∧ 2 ^ 52 ≤ Z.pos mx < 2 ^ 53)).
Proof.
  unfold bounded, canonical_mantissa, fexp, emin.
  rewrite andb_true_iff, Z.eqb_eq, Z.leb_le.
  destruct (digits2_pos_bounds mx) as [Hl Hh].
  set (s := Z.pos (digits2_pos mx)) in *.
  assert (0 < s) by (subst s; lia).
  split.
  - intros [Hc He]. split; [lia|].
    destruct (Z.eq_dec ex (-1074)) as [->|Hne].
    + left. split; [done|].
      assert (s ≤ 53) by lia.
      assert (2 ^ s ≤ 2 ^ 53) by (apply Z.pow_le_mono_r; lia). lia.
    + right. assert (s = 53) as Hs by lia. rewrite Hs in *.
      split; [lia|]. exact (conj Hl Hh).
  - intros [He [[-> Hm]|[Hex Hm]]]; (split; [|lia]).
    + assert (s ≤ 53); [|lia].
      destruct (Z.le_gt_cases s 53) as [|Hgt]; [done|].
      assert (2 ^ 53 ≤ 2 ^ (s - 1)) by (apply Z.pow_le_mono_r; lia). lia.
    + assert (s = 53) as ->; [|lia].
      subst s. apply digits2_pos_eq; [lia|]. exact Hm.
Qed.

Lemma binary64_of_denotes n j :
  0 ≤ j → 0 ≤ n ≤ 2 ^ 53 → (j = 0 ∨ 2 ^ 52 ≤ n) →
  denotes (binary64_of n j) (n * 2 ^ j).
Proof.
  intros Hj Hn Hlow. unfold binary64_of.
  assert (0 < 2 ^ j) as Hpj by (apply Z.pow_pos_nonneg; lia).
  destruct n as [|p|p]; [simpl; lia| |lia].
  destruct (Z.eqb_spec (Z.pos p) (2 ^ 53)) as [E|NE].
  - destruct (Z.leb_spec (j + 1) 2045) as [Hle|Hgt].
    + unfold denotes.
      assert (Z.pos (Z.to_pos (2 ^ 52)) = 2 ^ 52) as E52 by reflexivity.
      split.
      * apply bounded_iff. split; [lia|].
        right. split; [lia|]. rewrite E52. done.
      * rewrite E52, E.
        replace (j + 1 - 1074 + 1074) with (j + 1) by lia.
        rewrite Z.pow_add_r by lia. change (2 ^ 53) with (2 ^ 52 * 2 ^ 1). lia.
    + unfold denotes. rewrite E.
      assert (2 ^ 2045 ≤ 2 ^ j) by (apply Z.pow_le_mono_r; lia).
      change (2 ^ 2098) with (2 ^ 53 * 2 ^ 2045). nia.
  - destruct (Z.leb_spec j 2045) as [Hle|Hgt].
    + unfold denotes. split.
      * apply bounded_iff. split; [lia|].
        destruct Hlow as [->|Hlow]; [left|]; [split; lia|].
        destruct (Z.eq_dec j 0) as [->|]; [left; split; lia|right; split; lia].
      * by replace (j - 1074 + 1074) with j by lia.
    + unfold denotes. destruct Hlow as [->|Hlow]; [lia|].
      assert (2 ^ 2046 ≤ 2 ^ j) by (apply Z.pow_le_mono_r; lia).
      change (2 ^ 2098) with (2 ^ 52 * 2 ^ 2046). nia.
Qed.

Lemma float_of_decimal_rounds m k :
  0 ≤ m → rounds_to m k (float_of_decimal m k).
Proof.
  intros Hm. unfold rounds_to.
  assert (0 < 10 ^ Z.of_nat k) as Hd by (apply Z.pow_pos_nonneg; lia).
  destruct m as [|p|p]; [| |lia].
  - exists 0, 0. cbn zeta. change (2 ^ 0) with 1. simpl denotes.
    repeat split; lia.
  - unfold float_of_decimal.
    set (d := 10 ^ Z.of_nat k) in *. set (M := Z.pos p * 2 ^ 1074).
    assert (0 < M) as HM by (subst M; lia).
    destruct (binade_spec M d HM Hd) as (Hj & Hlo & Hhi).
    set (j := binade M d) in *.
    assert (0 < 2 ^ j) as Hpj by (apply Z.pow_pos_nonneg; lia).
    assert (0 < d * 2 ^ j) as HD by lia.
    destruct (round_half_even_spec M (d * 2 ^ j) HD) as [Hnear Htie].
    exists j, (round_half_even M (d * 2 ^ j)). cbn zeta.
    repeat split; try done.
    apply binary64_of_denotes; [done| |].
    + apply round_half_even_bounds; lia.
    + destruct Hlo as [->|Hlo]; [by left|right].
      apply (round_half_even_bounds M (d * 2 ^ j) (2 ^ 52) (2 ^ 53)); lia.
Qed.

Lemma denotes_unique x y N : denotes x N → denotes y N → x = y.
Proof.
  assert (Hfin : ∀ mx ex, bounded 53 1024 mx ex = true →
            0 < Z.pos mx * 2 ^ (ex + 1074) < 2 ^ 2098).
  { intros mx ex [He Hc]%bounded_iff.
    assert (0 < 2 ^ (ex + 1074)) by (apply Z.pow_pos_nonneg; lia).
    assert (2 ^ (ex + 1074) ≤ 2 ^ 2045) by (apply Z.pow_le_mono_r; lia).
    change (2 ^ 2098) with (2 ^ 53 * 2 ^ 2045).
    split; [lia|]. nia. }
  assert (Hlt : ∀ mx ex my ey,
            bounded 53 1024 mx ex = true → bounded 53 1024 my ey = true →
            ex < ey → Z.pos mx * 2 ^ (ex + 1074) < Z.pos my * 2 ^ (ey + 1074)).
  { intros mx ex my ey [Hex Hx]%bounded_iff [Hey Hy]%bounded_iff Hlt.
    assert (0 < 2 ^ (ex + 1074)) by (apply Z.pow_pos_nonneg; lia).
    assert (2 ^ (ex + 1074 + 1) ≤ 2 ^ (ey + 1074)) as Hp
      by (apply Z.pow_le_mono_r; lia).
    rewrite Z.pow_add_r in Hp by lia. change (2 ^ 1) with 2 in Hp.
    change (2 ^ 53) with (2 * 2 ^ 52) in *. nia. }
  destruct x as [[]| []| |[] mx ex], y as [[]|[]| |[] my ey]; simpl;
    try done; try lia.
  - intros -> [Hb Hv]. specialize (Hfin _ _ Hb). lia.
  - intros H [Hb Hv]. specialize (Hfin _ _ Hb). lia.
  - intros [Hb Hv] ->. specialize (Hfin _ _ Hb). lia.
  - intros [Hb Hv] H. specialize (Hfin _ _ Hb). lia.
  - intros [Hbx Hvx] [Hby Hvy].
    destruct (Z.lt_trichotomy ex ey) as [Hl|[->|Hg]].
    + specialize (Hlt _ _ _ _ Hbx Hby Hl). lia.
    + assert (0 < 2 ^ (ey + 1074)).
      { apply bounded_iff in Hby. apply Z.pow_pos_nonneg; lia. }
      f_equal. nia.
    + specialize (Hlt _ _ _ _ Hby Hbx Hg). lia.
Qed.

Lemma rounds_to_unique m k x y : rounds_to m k x → rounds_to m k y → x = y.
Proof.
  intros (j & n & Hj & Hlo & Hhi & Hn & Htie & Hx)
         (j' & n' & Hj' & Hlo' & Hhi' & Hn' & Htie' & Hy).
  cbn zeta in *.
  assert (0 < 10 ^ Z.of_nat k) as Hd by (apply Z.pow_pos_nonneg; lia).
  set (d := 10 ^ Z.of_nat k) in *. set (M := m * 2 ^ 1074) in *.
  assert (Hjj : ∀ a b, 0 ≤ a → a < b → 2 ^ 52 * (d * 2 ^ b) ≤ M →
                 M < 2 ^ 53 * (d * 2 ^ a) → False).
  { intros a b Ha Hab H1 H2.
    assert (0 < 2 ^ a) by (apply Z.pow_pos_nonneg; lia).
    assert (2 ^ (a + 1) ≤ 2 ^ b) as Hp by (apply Z.pow_le_mono_r; lia).
    rewrite Z.pow_add_r in Hp by lia. change (2 ^ 1) with 2 in Hp.
    change (2 ^ 53) with (2 * 2 ^ 52) in *. nia. }
  assert (j = j') as <-.
  { destruct (Z.lt_trichotomy j j') as [Hl|[->|Hg]]; [|done|].
    - destruct Hlo' as [->|Hlo']; [lia|]. by destruct (Hjj j j').
    - destruct Hlo as [->|Hlo]; [lia|]. by destruct (Hjj j' j). }
  assert (0 < 2 ^ j) as Hpj by (apply Z.pow_pos_nonneg; lia).
  set (D := d * 2 ^ j) in *. assert (0 < D) as HD by (subst D; lia).
  assert (n = n') as <-.
  { assert (-1 ≤ n - n' ≤ 1) as Hdiff by nia.
    destruct (Z.eq_dec n n') as [|Hne]; [done|exfalso].
    assert (2 * Z.abs (n * D - M) = D ∧ 2 * Z.abs (n' * D - M) = D) as [T T'] by nia.
    apply Htie in T. apply Htie' in T'.
    assert (n' = n + 1 ∨ n = n' + 1) as [->| ->] by lia.
    - rewrite Z.even_add, T in T'. done.
    - rewrite Z.even_add, T' in T. done. }
  by apply (denotes_unique x y (n * 2 ^ j)).
Qed.

Lemma nearest_multiple n q D : 0 < D → 2 * Z.abs (n * D - q * D) ≤ D → n = q.
Proof.
  intros HD H.
  replace (n * D - q * D) with ((n - q) * D) in H by lia.
  rewrite Z.abs_mul, (Z.abs_eq D) in H by lia.
  assert (Z.abs (n - q) < 1) by nia. lia.
Qed.

Lemma rounds_to_exact m k x y N :
  denotes y N → N * 10 ^ Z.of_nat k = m * 2 ^ 1074 → rounds_to m k x → x = y.
Proof.
  intros Hy HN (j & n & Hj & Hlo & Hhi & Hn & _ & Hx). cbn zeta in *.
  assert (0 < 10 ^ Z.of_nat k) as Hd by (apply Z.pow_pos_nonneg; lia).
  rewrite <- HN in *. clear HN.
  set (d := 10 ^ Z.of_nat k) in *.
  assert (0 < 2 ^ j) as Hpj by (apply Z.pow_pos_nonneg; lia).
  assert (0 < d * 2 ^ j) as HD by lia.
  apply (denotes_unique x y (n * 2 ^ j)); [done|].
  destruct y as [[]| []| |[] mx ex]; simpl in Hy |- *; try done.
  - subst N. rewrite (nearest_multiple n 0 (d * 2 ^ j)); [lia|done|].
    by rewrite !Z.mul_0_l in *.
  - assert (N < 2 ^ 53 * 2 ^ j) as HNlt by nia.
    assert (2 ^ 2045 < 2 ^ j) as Hpow.
    { change (2 ^ 2098) with (2 ^ 53 * 2 ^ 2045) in Hy. nia. }
    assert (2045 < j) as Hjbig.
    { destruct (Z.le_gt_cases j 2045) as [Hle|]; [|done].
      assert (2 ^ j ≤ 2 ^ 2045) by (apply Z.pow_le_mono_r; lia). lia. }
    destruct Hlo as [->|Hlo]; [lia|].
    assert (2 ^ 2046 ≤ 2 ^ j) by (apply Z.pow_le_mono_r; lia).
    assert (2 ^ 52 * 2 ^ j ≤ N) as HNge by nia.
    assert (2 ^ 52 ≤ n) as Hnge.
    { destruct (Z.le_gt_cases (2 ^ 52) n) as [|Hgt]; [done|exfalso].
      assert (n * (d * 2 ^ j) + d * 2 ^ j ≤ N * d) by nia.
      lia. }
    change (2 ^ 2098) with (2 ^ 52 * 2 ^ 2046). nia.
  - destruct Hy as [Hb Hv]. split; [done|].
    apply bounded_iff in Hb as [Hex Hm].
    set (E := ex + 1074) in *.
    assert (0 ≤ E) as HE by (subst E; lia).
    assert (0 < 2 ^ E) as HpE by (apply Z.pow_pos_nonneg; lia).
    assert (Z.pos mx < 2 ^ 53) as Hmx by (destruct Hm; lia).
    assert (j ≤ E) as HjE.
    { destruct (Z.le_gt_cases j E) as [|Hgt]; [done|exfalso].
      destruct Hlo as [->|Hlo]; [lia|].
      assert (2 ^ (E + 1) ≤ 2 ^ j) as Hp by (apply Z.pow_le_mono_r; lia).
      rewrite Z.pow_add_r in Hp by lia. change (2 ^ 1) with 2 in Hp.
      assert (2 ^ 52 * 2 ^ j ≤ N) by nia.
      change (2 ^ 53) with (2 * 2 ^ 52) in *. nia. }
    assert (2 ^ E = 2 ^ (E - j) * 2 ^ j) as HEj.
    { rewrite <- Z.pow_add_r by lia. f_equal. lia. }
    rewrite (nearest_multiple n (Z.pos mx * 2 ^ (E - j)) (d * 2 ^ j)); [lia|done|].
    replace (Z.pos mx * 2 ^ (E - j) * (d * 2 ^ j)) with (N * d); [done|].
    rewrite <- Hv, HEj. lia.
Qed.

(** *** Decimal numerals *)

Lemma usize_nb_digits u : Unsigned.usize u = N.of_nat (Decimal.nb_digits u).
Proof. induction u; simpl Unsigned.usize; simpl Decimal.nb_digits; lia. Qed.

Lemma of_uint_cons (f : Decimal.uint → Decimal.uint) (c : N) u :
  Decimal.rev (f u) = Decimal.revapp u (f Decimal.Nil) →
  Unsigned.of_lu (f Decimal.Nil) = c →
  Z.of_uint (f u)
  = Z.of_N c * 10 ^ Z.of_nat (Decimal.nb_digits u) + Z.of_uint u.
Proof.
  intros Hrev Hc. unfold Z.of_uint.
  rewrite !Unsigned.of_uint_alt, Hrev, Unsigned.of_lu_revapp, Hc, usize_nb_digits.
  rewrite N2Z.inj_add, N2Z.inj_mul, N2Z.inj_pow, nat_N_Z. simpl Z.of_N at 3. lia.
Qed.

Lemma digits_value_numeral u acc :
  digits_value acc (numeral_text u)
  = Some (acc * 10 ^ Z.of_nat (Decimal.nb_digits u) + Z.of_uint u).
Proof.
  revert acc. induction u; intros acc;
    [simpl; f_equal; change (Z.of_uint Decimal.Nil) with 0; lia|..];
    simpl NilEmpty.string_of_uint; simpl digits_value; rewrite IHu; f_equal;
    simpl Decimal.nb_digits; rewrite Nat2Z.inj_succ, Z.pow_succ_r by lia;
    match goal with
    | |- context [Z.of_uint (?f u)] =>
        rewrite (of_uint_cons f _ u eq_refl eq_refl)
    end; unfold digit_value; simpl; lia.
Qed.

Lemma numeral_digits u : string_forallb is_digit (numeral_text u) = true.
Proof. induction u; simpl; done. Qed.

Lemma numeral_length u : String.length (numeral_text u) = Decimal.nb_digits u.
Proof. induction u; simpl; congruence. Qed.


Lemma of_uint_nonneg u : 0 ≤ Z.of_uint u.
Proof. unfold Z.of_uint. apply N2Z.is_nonneg. Qed.

Lemma digits_value_app acc a b :
  digits_value acc (a +:+ b)
  = match digits_value acc a with
    | Some m => digits_value m b
    | None => None
    end.
Proof.
  revert acc. induction a as [|c a IH]; intros acc; simpl; [done|].
  destruct (is_digit c); [apply IH|done].
Qed.


(** [float] on digits, a dot, digits; one side of the dot may be empty. *)
Lemma py_float_fraction ip frac :
  ip ≠ Decimal.Nil ∨ frac ≠ Decimal.Nil →
  py_float (numeral_text ip +:+ String "." (numeral_text frac))
  = inr (float_of_decimal
           (Z.of_uint ip * 10 ^ Z.of_nat (Decimal.nb_digits frac) + Z.of_uint frac)
           (Decimal.nb_digits frac)).
Proof.
  intros Hne. unfold py_float.
  rewrite cut_at_dot_fraction by apply numeral_digits. simpl default.
  rewrite digits_value_app, !digits_value_numeral, !numeral_length.
  destruct (Nat.eqb_spec (Decimal.nb_digits ip + Decimal.nb_digits frac) 0) as [Hz|_].
  { destruct Hne as [Hne|Hne]; [destruct ip|destruct frac];
      simpl in Hz; first [done|lia]. }
  by rewrite Z.mul_0_l, Z.add_0_l.
Qed.

Lemma nearest_of_decimal ip frac :
  nearest_to_decimal ip frac
    (float_of_decimal
       (Z.of_uint ip * 10 ^ Z.of_nat (Decimal.nb_digits frac) + Z.of_uint frac)
       (Decimal.nb_digits frac)).
Proof.
  apply float_of_decimal_rounds.
  pose proof (of_uint_nonneg ip). pose proof (of_uint_nonneg frac).
  assert (0 < 10 ^ Z.of_nat (Decimal.nb_digits frac))
    by (apply Z.pow_pos_nonneg; lia).
  nia.
Qed.

Lemma nearest_is_exact ip frac x y :
  nearest_to_decimal ip frac x → is_decimal ip frac y → x = y.
Proof.
  intros Hx (N & Hy & HN). by apply (rounds_to_exact _ _ x y N Hy HN).
Qed.




Lemma mapM_length {A B} (f : A → Result B) l ys :
  mapM f l = inr ys → length ys = length l.
Proof.
  revert ys. induction l as [|a l IH]; intros ys; simpl; [by intros [= <-]|].
  destruct (f a); [done|]. destruct (mapM f l); [done|].
  intros [= <-]. simpl. f_equal. by apply IH.
Qed.



(** The float of the example is 21.5, exactly. *)
Lemma twenty_one_and_a_half :
  is_decimal (Decimal.D2 (Decimal.D1 Decimal.Nil)) (Decimal.D5 Decimal.Nil)
             (S754_finite false 6051711999279104 (-48)).
Proof.
  exists (6051711999279104 * 2 ^ 1026). split; [split|]; vm_compute; reflexivity.
Qed.

(** C1.  A value part made of digits and dots that is not a number is
    captured by the pattern and then refused by the conversion to float:
    the extraction raises [ValueError] and the run ends with it, the
    temperature is not recorded as missing. *)
Theorem C1_malformed_value_raises :
  str_extract (Str "Ambient_temperatureC=1.2.3") = Some "1.2.3" ∧
  extract_temperature (Str "Ambient_temperatureC=1.2.3")
    = inl (could_not_convert "1.2.3") ∧
  (main reference cfg0
     (world_with (perf_line "1700000000" "srv1" "Ambient_temperatureC=1.2.3"))).1
    = inl (could_not_convert "1.2.3").
Proof. split_and!; vm_compute; reflexivity. Qed.

(** Where the pattern finds nothing the temperature is the missing marker. *)
Lemma no_match_is_missing s :
  re_search s = None → extract_temperature (Str s) = inr S754_nan.
Proof. unfold extract_temperature. simpl. by intros ->. Qed.

(** A column in which no cell is text has no [.str] accessor. *)
Lemma str_accessor_needs_text :
  raises (extract_temperatures [NaN; NaN]).
Proof. eexists. reflexivity. Qed.

(** ** The plotting loop *)

Lemma lines_of_cons data tz pair pairs :
  lines_of data tz (pair :: pairs)
  = (if has_rows data pair then [series_of data tz pair] else [])
    ++ lines_of data tz pairs.
Proof. unfold lines_of. simpl. by destruct (has_rows data pair). Qed.

(** The loop over a prefix of accepted calls: the lines of the prefix are
    added to the axes, and the loop goes on with what follows. *)
Lemma plot_hosts_app P data ok rest tz drawn :
  (∀ i pair, ok !! i = Some pair → has_rows data pair = true →
     plot_error P (drawn ++ lines_of data tz (take i ok)) (series_of data tz pair)
     = None) →
  plot_hosts P data (ok ++ rest) tz drawn
  = plot_hosts P data rest tz (drawn ++ lines_of data tz ok).
Proof.
  revert drawn. induction ok as [|[host col] ok IH]; intros drawn Hacc.
  { unfold lines_of. simpl. by rewrite app_nil_r. }
  rewrite lines_of_cons. simpl plot_hosts.
  destruct (host_rows data host) as [|r rows] eqn:Hrows.
  - assert (has_rows data (host, col) = false) as Hno.
    { unfold has_rows. simpl. by rewrite Hrows. }
    rewrite Hno. simpl. apply IH. intros i pair Hi Hrow.
    specialize (Hacc (S i) pair Hi Hrow). simpl in Hacc.
    by rewrite lines_of_cons, Hno in Hacc.
  - assert (has_rows data (host, col) = true) as Hyes.
    { unfold has_rows. simpl. by rewrite Hrows. }
    assert (series_of data tz (host, col)
            = mkLine (map (λ r, tz_convert tz (tz_localize "UTC" (Date r))) (r :: rows))
                     (map Temperature (r :: rows)) host col) as Hser.
    { unfold series_of. simpl. by rewrite Hrows. }
    rewrite Hyes. unfold plot. rewrite <- Hser.
    pose proof (Hacc 0%nat (host, col) eq_refl Hyes) as Hhead.
    unfold lines_of in Hhead. simpl in Hhead. rewrite app_nil_r in Hhead.
    rewrite Hhead, IH.
    + by rewrite <- app_assoc.
    + intros i pair Hi Hrow.
      specialize (Hacc (S i) pair Hi Hrow). simpl in Hacc.
      rewrite lines_of_cons, Hyes in Hacc. by rewrite <- app_assoc.
Qed.

Lemma plot_hosts_lines P data pairs tz :
  plots_accepted P data tz pairs →
  plot_hosts P data pairs tz [] = inr (lines_of data tz pairs).
Proof.
  intros Hacc.
  rewrite <- (app_nil_r pairs) at 1. by rewrite plot_hosts_app.
Qed.

(** C4 (amended).  Provided matplotlib accepts every plot call of the loop,
    the renderer draws one line per (host, colour) pair of the zipped lists
    whose host has at least one row in the data, in the order of the lists,
    through all the rows of that host - the rows with a missing temperature
    included, as NaN - and none for a host without rows; that figure is
    what is saved. *)
Theorem C4_one_series_per_host_with_rows P data hosts colors graph_file tz :
  plots_accepted P data tz (zip hosts colors) →
  let drawn := map (series_of data tz)
                   (List.filter (has_rows data) (zip hosts colors)) in
  plot_hosts P data (zip hosts colors) tz [] = inr drawn ∧
  ∀ target w,
    savefig_target P graph_file = inr target →
    generate_graph P data hosts colors graph_file tz w
    = (inr tt,
       with_fs (<[target := render P target
                    (mkFigure (10, 6) drawn "CED Temperature" "Time"
                       ("Temperature (" +:+ degree_sign +:+ "C)") true true true)]>) w).
Proof.
  intros Hacc drawn.
  assert (plot_hosts P data (zip hosts colors) tz [] = inr drawn) as Hplot.
  { by rewrite plot_hosts_lines. }
  split; [done|]. intros target w Htarget.
  unfold generate_graph, bind, lift, write_file.
  by rewrite Hplot, Htarget.
Qed.

Lemma C4_witness :
  plot_hosts reference
    [reading_without_token "srv1" 1700000000; reading_without_token "srv2" 1700000060]
    (zip ["srv1"; "srv3"; "srv2"] ["blue"; "green"; "red"]) "Europe/Rome" []
  = inr [mkLine [mkAware (Some 1700000000000000000) "Europe/Rome"] [S754_nan] "srv1" "blue";
         mkLine [mkAware (Some 1700000060000000000) "Europe/Rome"] [S754_nan] "srv2" "red"].
Proof.
  refine (proj1 (C4_one_series_per_host_with_rows reference
            [reading_without_token "srv1" 1700000000;
             reading_without_token "srv2" 1700000060]
            ["srv1"; "srv3"; "srv2"] ["blue"; "green"; "red"] "/tmp/temp.png"
            "Europe/Rome" _)).
  intros [|[|[|i]]] pair Hi Hrows; simpl in Hi; try discriminate Hi;
    injection Hi as <-; first [reflexivity | discriminate Hrows].
Defined.

(** C4, as stated, fails: a listed host whose only reading has no
    temperature still gets a line (through NaN), where the claim draws
    none. *)
Lemma C4_counterexample :
  plot_hosts reference [reading_without_token "srv1" 1700000000]
             (zip ["srv1"] ["blue"]) "Europe/Rome" []
  = inr [mkLine [mkAware (Some 1700000000000000000) "Europe/Rome"] [S754_nan]
                "srv1" "blue"] ∧
  series_as_specified [reading_without_token "srv1" 1700000000] "Europe/Rome"
                      ["srv1"] ["blue"] = [].
Proof. split; reflexivity. Qed.

Lemma omap_fmap_list {A B C} (f : B → option C) (g : A → B) (l : list A) :
  omap f (g <$> l) = omap (λ x, f (g x)) l.
Proof. induction l as [|x l IH]; csimpl; [done|]. by rewrite IH. Qed.

(** [zip] pairs position by position. *)
Lemma zip_pairs_by_index (hosts colors : list string) :
  zip hosts colors = pairs_by_index hosts colors.
Proof.
  unfold pairs_by_index. revert colors.
  induction hosts as [|h hosts IH]; intros colors; [done|].
  simpl length. rewrite <- cons_seq, <- fmap_S_seq.
  csimpl. rewrite omap_fmap_list.
  destruct colors as [|c colors]; csimpl.
  - clear. induction (seq 0 (length hosts)) as [|i l IHl]; csimpl; [done|].
    by destruct (hosts !! i).
  - f_equal. apply IH.
Qed.

(** C10.  The loop runs over the pairs (hosts[i], colors[i]) for the
    indices i below min(len(hosts), len(colors)), in order, and over
    nothing else: [generate_graph] is the loop over these pairs followed by
    the saving of what was drawn; when matplotlib accepts the calls, the
    figure has one line per such pair whose host has rows, labelled
    hosts[i] and coloured colors[i]; and what lies beyond in the longer
    list has no effect on the outcome, error or not. *)
Theorem C10_zip_truncates_to_shorter P data (hosts colors : list string) graph_file tz :
  let n := Nat.min (length hosts) (length colors) in
  let pairs := pairs_by_index hosts colors in
  length pairs = n ∧
  (∀ i h c, pairs !! i = Some (h, c)
            ↔ (i < n)%nat ∧ hosts !! i = Some h ∧ colors !! i = Some c) ∧
  (∀ w, generate_graph P data hosts colors graph_file tz w
        = match plot_hosts P data pairs tz [] with
          | inl e => (inl e, w)
          | inr drawn =>
              match savefig_target P graph_file with
              | inl e => (inl e, w)
              | inr target =>
                  (inr tt,
                   with_fs (<[target := render P target
                                (mkFigure (10, 6) drawn "CED Temperature" "Time"
                                   ("Temperature (" +:+ degree_sign +:+ "C)")
                                   true true true)]>) w)
              end
          end) ∧
  (plots_accepted P data tz pairs →
   plot_hosts P data pairs tz []
   = inr (map (series_of data tz) (List.filter (has_rows data) pairs))) ∧
  generate_graph P data hosts colors graph_file tz
  = generate_graph P data (take n hosts) (take n colors) graph_file tz.
Proof.
  intros n pairs. unfold pairs. rewrite <- zip_pairs_by_index. split_and!.
  - apply length_zip_with.
  - intros i h c. rewrite lookup_zip_with_Some. split.
    + intros (x & y & [= -> ->] & Hx & Hy). split_and!; [|done..].
      apply lookup_lt_Some in Hx. apply lookup_lt_Some in Hy. lia.
    + intros (_ & Hx & Hy). eauto.
  - intros w. unfold generate_graph, bind, lift, write_file.
    destruct (plot_hosts _ _ _ _ _); [done|].
    by destruct (savefig_target P graph_file).
  - apply plot_hosts_lines.
  - unfold generate_graph.
    replace (zip (take n hosts) (take n colors)) with (zip hosts colors); [done|].
    symmetry. apply zip_with_take_both'; lia.
Qed.

(** The third host has no colour and the loop never comes to it. *)
Lemma C10_witness :
  pairs_by_index ["srv1"; "srv2"; "srv3"] ["blue"; "green"]
  = [("srv1", "blue"); ("srv2", "green")] ∧
  generate_graph reference
    [reading_without_token "srv3" 1700000000; reading_without_token "srv2" 1700000060;
     reading_without_token "srv1" 1700000120]
    ["srv1"; "srv2"; "srv3"] ["blue"; "green"] "/tmp/temp.png" "Europe/Rome"
    (mkWorld ∅ [] [])
  = (inr tt, mkWorld {[ "/tmp/temp.png" := "PNG:srv1;srv2;" ]} [] []).
Proof.
  split; [reflexivity|].
  destruct (C10_zip_truncates_to_shorter reference
              [reading_without_token "srv3" 1700000000;
               reading_without_token "srv2" 1700000060;
               reading_without_token "srv1" 1700000120]
              ["srv1"; "srv2"; "srv3"] ["blue"; "green"] "/tmp/temp.png"
              "Europe/Rome") as (_ & _ & Hrun & Hlines & _).
  rewrite Hrun, Hlines; [vm_compute; reflexivity|].
  intros [|[|i]] pair Hi Hrows; simpl in Hi; try discriminate Hi;
    injection Hi as <-; reflexivity.
Defined.

(** ** Statements and the file system *)

Lemma bind_returns {A B} (c : IO A) (k : A → IO B) w y w' :
  bind c k w = (inr y, w') →
  ∃ x w1, c w = (inr x, w1) ∧ k x w1 = (inr y, w').
Proof.
  unfold bind. destruct (c w) as [[e|x] w1]; [done|]. eauto.
Qed.

Lemma bind_raises_first {A B} (c : IO A) (k : A → IO B) w e w1 :
  c w = (inl e, w1) → bind c k w = (inl e, w1).
Proof. unfold bind. by intros ->. Qed.

Lemma bind_continues {A B} (c : IO A) (k : A → IO B) w x w1 :
  c w = (inr x, w1) → bind c k w = k x w1.
Proof. unfold bind. by intros ->. Qed.

Lemma touches_only_mono {A} ps ps' (c : IO A) :
  ps ⊆ ps' → touches_only ps c → touches_only ps' c.
Proof. intros Hsub Hc w q Hq. apply Hc. intros Hin. by apply Hq, Hsub. Qed.

Lemma touches_only_bind {A B} ps (c : IO A) (k : A → IO B) :
  touches_only ps c → (∀ x, touches_only ps (k x)) → touches_only ps (bind c k).
Proof.
  intros Hc Hk w q Hq. unfold bind.
  specialize (Hc w q Hq). destruct (c w) as [[e|x] w1]; simpl in *; [done|].
  by rewrite (Hk x w1 q Hq).
Qed.

Lemma touches_only_lift {A} ps (r : Result A) : touches_only ps (lift r).
Proof. by intros w q _. Qed.

Lemma touches_only_ret {A} ps (x : A) : touches_only ps (ret x).
Proof. by intros w q _. Qed.

Lemma touches_only_read_file ps p : touches_only ps (read_file p).
Proof. intros w q _. unfold read_file. by destruct (fs w !! p). Qed.

Lemma touches_only_print ps line : touches_only ps (print line).
Proof. by intros w q _. Qed.

Lemma touches_only_write_file p c : touches_only [p] (write_file p c).
Proof.
  intros w q Hq. simpl. apply lookup_insert_ne. intros ->. apply Hq. by left.
Qed.

Lemma touches_only_copyfile src dst : touches_only [dst] (copyfile src dst).
Proof.
  intros w q Hq. unfold copyfile. destruct (fs w !! src); [|done].
  destruct (decide (src = dst)); [done|]. simpl.
  apply lookup_insert_ne. intros ->. apply Hq. by left.
Qed.

Lemma touches_only_os_remove p : touches_only [p] (os_remove p).
Proof.
  intros w q Hq. unfold os_remove. destruct (fs w !! p); [|done]. simpl.
  apply lookup_delete_ne. intros ->. apply Hq. by left.
Qed.

Lemma touches_only_try_except {A} ps (c : IO A) h :
  touches_only ps c → (∀ e, touches_only ps (h e)) → touches_only ps (try_except c h).
Proof.
  intros Hc Hh w q Hq. unfold try_except.
  specialize (Hc w q Hq). destruct (c w) as [[e|x] w1]; simpl in *; [|done].
  by rewrite (Hh e w1 q Hq).
Qed.

Lemma touches_only_attach_files ps attachments parts :
  touches_only ps (attach_files attachments parts).
Proof.
  revert parts. induction attachments as [|p rest IH]; intros parts; simpl.
  - apply touches_only_ret.
  - apply touches_only_bind; [apply touches_only_read_file|]. intros x. apply IH.
Qed.

Lemma touches_only_send_email P ps subj bd attachments sender rcpt server port :
  touches_only ps (send_email P subj bd attachments sender rcpt server port).
Proof.
  unfold send_email. apply touches_only_bind; [apply touches_only_attach_files|].
  intros parts. apply touches_only_try_except.
  - intros w q _. unfold smtp_session.
    by destruct (sendmail _ _ _ _ _ _) as [e|[e|]].
  - intros e. apply touches_only_print.
Qed.

Lemma touches_only_generate_graph P data hosts colors graph_file tz :
  touches_only (match savefig_target P graph_file with
                | inr target => [target]
                | inl _ => []
                end)
               (generate_graph P data hosts colors graph_file tz).
Proof.
  unfold generate_graph. apply touches_only_bind; [apply touches_only_lift|].
  intros drawn w q Hq. unfold bind, lift.
  destruct (savefig_target P graph_file) as [e|target]; [done|].
  by apply touches_only_write_file.
Qed.

Lemma touches_only_load_and_process P ps cfg :
  touches_only ps (load_and_process P cfg).
Proof.
  unfold load_and_process.
  apply touches_only_bind; [apply touches_only_read_file|]. intros content.
  repeat (apply touches_only_bind; [apply touches_only_lift|]; intros ?).
  apply touches_only_ret.
Qed.

Lemma singleton_subseteq (p : string) (ps : list string) : p ∈ ps → [p] ⊆ ps.
Proof. intros Hp q Hq. by apply list_elem_of_singleton in Hq as ->. Qed.

Ltac path_listed :=
  apply singleton_subseteq; rewrite ?elem_of_app, ?elem_of_cons; auto 8.

Lemma touches_only_main P cfg : touches_only (written_paths P cfg) (main P cfg).
Proof.
  unfold main, written_paths.
  apply touches_only_bind; [|intros _; apply touches_only_bind;
                              [|intros data; apply touches_only_bind; [|intros _]]].
  - unfold snapshot_and_clear. apply touches_only_bind; [|intros _].
    + eapply touches_only_mono; [|apply touches_only_copyfile]. path_listed.
    + eapply touches_only_mono; [|apply touches_only_write_file]. path_listed.
  - apply touches_only_load_and_process.
  - eapply touches_only_mono; [|apply touches_only_generate_graph].
    destruct (savefig_target P (graph_file cfg)).
    + intros q Hq. by apply elem_of_nil in Hq.
    + intros q Hq. apply elem_of_app. by right.
  - unfold notify_and_cleanup.
    apply touches_only_bind; [apply touches_only_send_email|intros _].
    apply touches_only_bind; [|intros _].
    + eapply touches_only_mono; [|apply touches_only_os_remove]. path_listed.
    + eapply touches_only_mono; [|apply touches_only_os_remove]. path_listed.
Qed.

(** The load step reads and computes; the world is as before. *)
Lemma load_and_process_pure P cfg w :
  (load_and_process P cfg w).2 = w.
Proof.
  unfold load_and_process, bind, read_file, lift, ret.
  destruct (fs w !! copied_file cfg); [|done].
  destruct (read_csv P _); [done|].
  destruct (extract_temperatures _); [done|].
  by destruct (mapM _ _).
Qed.

(** C2.  No statement of a run writes the configured spreadsheet path:
    whatever the input and however the run ends, the file at [excel_file]
    - when that path is none of the three other configured paths nor the
    file the chart is saved to - is after the run what it was before it; a
    path that held no file holds none. *)
Theorem C2_excel_file_is_never_written P cfg w :
  excel_file cfg ∉ written_paths P cfg →
  fs (main P cfg w).2 !! excel_file cfg = fs w !! excel_file cfg.
Proof. intros Hex. by apply touches_only_main. Qed.

Lemma C2_witness :
  (main reference cfg0 (world_with perfdata0)).1 = inr tt ∧
  fs (main reference cfg0 (world_with perfdata0)).2 !! excel_file cfg0 = None.
Proof.
  split; [reflexivity|].
  refine (eq_trans (C2_excel_file_is_never_written reference cfg0
                      (world_with perfdata0) _) _); [|reflexivity].
  vm_compute. intros H.
  repeat (apply elem_of_cons in H as [H|H]; [discriminate H|]).
  by apply elem_of_nil in H.
Defined.

(** ** The steps of a run *)

Lemma os_remove_returns p w w1 :
  os_remove p w = (inr tt, w1) →
  is_Some (fs w !! p) ∧ w1 = with_fs (delete p) w.
Proof.
  unfold os_remove. destruct (fs w !! p) eqn:Hp; [|done].
  intros [= <-]. eauto.
Qed.

Lemma snapshot_and_clear_returns cfg w content :
  fs w !! original_file cfg = Some content →
  original_file cfg ≠ copied_file cfg →
  snapshot_and_clear cfg w
  = (inr tt, with_fs (λ m, <[original_file cfg := ""]>
                             (<[copied_file cfg := content]> m)) w).
Proof.
  intros Hc Hne. unfold snapshot_and_clear, bind, copyfile, write_file.
  rewrite Hc. by destruct (decide _).
Qed.

Lemma snapshot_and_clear_raises cfg w :
  fs w !! original_file cfg = None ∨ original_file cfg = copied_file cfg →
  ∃ e, snapshot_and_clear cfg w = (inl e, w).
Proof.
  intros H. unfold snapshot_and_clear, bind, copyfile.
  destruct (fs w !! original_file cfg) as [content|]; [|by eauto].
  destruct (decide _) as [|Hne]; [by eauto|]. by destruct H.
Qed.

Lemma snapshot_and_clear_inv cfg w w1 :
  snapshot_and_clear cfg w = (inr tt, w1) →
  ∃ content, fs w !! original_file cfg = Some content
             ∧ original_file cfg ≠ copied_file cfg
             ∧ w1 = with_fs (λ m, <[original_file cfg := ""]>
                                    (<[copied_file cfg := content]> m)) w.
Proof.
  intros H. destruct (fs w !! original_file cfg) as [content|] eqn:Hc.
  - destruct (decide (original_file cfg = copied_file cfg)) as [Heq|Hne].
    + destruct (snapshot_and_clear_raises cfg w (or_intror Heq)) as [e He].
      congruence.
    + rewrite (snapshot_and_clear_returns _ _ _ Hc Hne) in H.
      injection H as <-. eauto.
  - destruct (snapshot_and_clear_raises cfg w (or_introl Hc)) as [e He].
    congruence.
Qed.

Lemma attach_files_readable attachments parts w :
  Forall (λ p, is_Some (fs w !! p)) attachments →
  ∃ parts', attach_files attachments parts w = (inr parts', w).
Proof.
  revert parts. induction attachments as [|p rest IH]; intros parts Hall; simpl.
  - by eexists.
  - apply Forall_cons in Hall as [[c Hc] Hrest].
    unfold bind, read_file. rewrite Hc. by apply IH.
Qed.

Lemma attach_files_unreadable attachments parts w :
  Exists (λ p, fs w !! p = None) attachments →
  ∃ p, p ∈ attachments ∧ fs w !! p = None
       ∧ attach_files attachments parts w = (inl (no_such_file p), w).
Proof.
  revert parts. induction attachments as [|p rest IH]; intros parts Hex; simpl.
  - by apply Exists_nil in Hex.
  - unfold bind, read_file. destruct (fs w !! p) as [c|] eqn:Hc.
    + apply Exists_cons in Hex as [Hp|Hrest]; [congruence|].
      destruct (IH (parts ++ [Attachment c (basename p)]) Hrest) as (p' & Hin & Hnone & Hrun).
      exists p'. split_and!; [by right|done..].
    + exists p. split_and!; [by left|done..].
Qed.

(** What [send_email] does once every attachment has been read. *)
Lemma send_email_after_attach P subj bd attachments sender rcpt server port w parts :
  attach_files attachments [TextPart bd "plain"] w = (inr parts, w) →
  send_email P subj bd attachments sender rcpt server port w
  = (inr tt,
     match sendmail P server port sender rcpt (mkMessage sender rcpt subj parts) with
     | Accepted None =>
         mkWorld (fs w) (stdout w)
                 (delivered w ++ [mkMessage sender rcpt subj parts])
     | Accepted (Some e) =>
         mkWorld (fs w) (stdout w ++ ["Failed to send email: " +:+ exn_text e])
                 (delivered w ++ [mkMessage sender rcpt subj parts])
     | Refused e =>
         mkWorld (fs w) (stdout w ++ ["Failed to send email: " +:+ exn_text e])
                 (delivered w)
     end).
Proof.
  intros Hparts. unfold send_email, bind. rewrite Hparts.
  unfold try_except, smtp_session, print.
  by destruct (sendmail _ _ _ _ _ _) as [e|[e|]].
Qed.

Lemma send_email_unreadable P subj bd attachments sender rcpt server port w :
  Exists (λ p, fs w !! p = None) attachments →
  ∃ p, p ∈ attachments ∧ fs w !! p = None
       ∧ send_email P subj bd attachments sender rcpt server port w
         = (inl (no_such_file p), w).
Proof.
  intros Hex.
  destruct (attach_files_unreadable _ [TextPart bd "plain"] _ Hex)
    as (p & Hin & Hnone & Hrun).
  exists p. split_and!; [done..|]. unfold send_email, bind. by rewrite Hrun.
Qed.

(** The file system after [send_email] is the one before it, and its
    result does not depend on the relay. *)
Lemma send_email_fs P subj bd attachments sender rcpt server port w :
  fs (send_email P subj bd attachments sender rcpt server port w).2 = fs w.
Proof.
  unfold send_email, bind.
  assert (∀ parts, (attach_files attachments parts w).2 = w) as Hw.
  { induction attachments as [|p rest IH]; intros parts; simpl; [done|].
    unfold bind, read_file. destruct (fs w !! p); [apply IH|done]. }
  specialize (Hw [TextPart bd "plain"]).
  destruct (attach_files _ _ w) as [[e|parts] w1]; simpl in Hw; subst; [done|].
  unfold try_except, smtp_session, print.
  by destruct (sendmail _ _ _ _ _ _) as [e|[e|]].
Qed.

Lemma send_email_result_relay P relay subj bd attachments sender rcpt server port w :
  (send_email (with_relay P relay) subj bd attachments sender rcpt server port w).1
  = (send_email P subj bd attachments sender rcpt server port w).1.
Proof.
  unfold send_email, bind.
  destruct (attach_files _ _ w) as [[e|parts] w1]; [done|].
  unfold try_except, smtp_session, print. simpl.
  by destruct (relay _ _ _ _ _) as [e|[e|]],
              (sendmail P _ _ _ _ _) as [e'|[e'|]].
Qed.

Lemma os_remove_fs_only p wa wb :
  fs wa = fs wb →
  (os_remove p wa).1 = (os_remove p wb).1
  ∧ fs (os_remove p wa).2 = fs (os_remove p wb).2.
Proof.
  intros Hfs. unfold os_remove. rewrite Hfs.
  destruct (fs wb !! p); simpl; by rewrite ?Hfs.
Qed.

Lemma notify_and_cleanup_relay P relay cfg w :
  (notify_and_cleanup (with_relay P relay) cfg w).1 = (notify_and_cleanup P cfg w).1
  ∧ fs (notify_and_cleanup (with_relay P relay) cfg w).2
    = fs (notify_and_cleanup P cfg w).2.
Proof.
  unfold notify_and_cleanup, bind.
  pose proof (send_email_result_relay P relay subject body
                [graph_file cfg; copied_file cfg] (from_email cfg) (to_email cfg)
                (smtp_server cfg) (smtp_port cfg) w) as Hres.
  pose proof (send_email_fs (with_relay P relay) subject body
                [graph_file cfg; copied_file cfg] (from_email cfg) (to_email cfg)
                (smtp_server cfg) (smtp_port cfg) w) as Hfa.
  pose proof (send_email_fs P subject body
                [graph_file cfg; copied_file cfg] (from_email cfg) (to_email cfg)
                (smtp_server cfg) (smtp_port cfg) w) as Hfb.
  destruct (send_email (with_relay P relay) _ _ _ _ _ _ _ w) as [ra wa].
  destruct (send_email P _ _ _ _ _ _ _ w) as [rb wb].
  simpl in *. subst rb. destruct ra as [e|[]]; simpl; [by rewrite Hfa, Hfb|].
  assert (fs wa = fs wb) as Hfs by congruence.
  destruct (os_remove_fs_only (copied_file cfg) wa wb Hfs) as [H1 H2].
  destruct (os_remove (copied_file cfg) wa) as [r1 wa1].
  destruct (os_remove (copied_file cfg) wb) as [r2 wb1].
  simpl in *. subst r2. destruct r1 as [e|[]]; simpl; [done|].
  by apply os_remove_fs_only.
Qed.

Lemma main_relay P relay cfg w :
  (main (with_relay P relay) cfg w).1 = (main P cfg w).1
  ∧ fs (main (with_relay P relay) cfg w).2 = fs (main P cfg w).2.
Proof.
  unfold main, bind.
  destruct (snapshot_and_clear cfg w) as [[e|[]] w1]; [done|].
  change (load_and_process (with_relay P relay) cfg w1)
    with (load_and_process P cfg w1).
  destruct (load_and_process P cfg w1) as [[e|data] w2]; [done|].
  change (generate_graph (with_relay P relay)) with (generate_graph P).
  destruct (generate_graph P data _ _ _ _ w2) as [[e|[]] w3]; [done|].
  apply notify_and_cleanup_relay.
Qed.

Lemma generate_graph_returns P data hosts colors graph_file tz w w1 :
  generate_graph P data hosts colors graph_file tz w = (inr tt, w1) →
  ∃ fig target, savefig_target P graph_file = inr target
                ∧ w1 = with_fs (<[target := render P target fig]>) w.
Proof.
  unfold generate_graph, bind, lift, write_file.
  destruct (plot_hosts _ _ _ _ _) as [e|drawn]; [done|].
  destruct (savefig_target P graph_file) as [e|target]; [done|].
  intros [= <-]. eauto.
Qed.

(** A run that returns: what was on disk, what was mailed, what is left. *)
Lemma main_returns P cfg w w' :
  main P cfg w = (inr tt, w') →
  ∃ content fig target img snap,
    fs w !! original_file cfg = Some content
    ∧ original_file cfg ≠ copied_file cfg
    ∧ savefig_target P (graph_file cfg) = inr target
    ∧ let disk := <[target := render P target fig]>
                    (<[original_file cfg := ""]>
                       (<[copied_file cfg := content]> (fs w))) in
      let msg := mkMessage (from_email cfg) (to_email cfg) subject
                   [TextPart body "plain";
                    Attachment img (basename (graph_file cfg));
                    Attachment snap (basename (copied_file cfg))] in
      disk !! graph_file cfg = Some img
      ∧ disk !! copied_file cfg = Some snap
      ∧ fs w' = delete (graph_file cfg) (delete (copied_file cfg) disk)
      ∧ match sendmail P (smtp_server cfg) (smtp_port cfg)
                         (from_email cfg) (to_email cfg) msg with
        | Accepted None =>
            stdout w' = stdout w ∧ delivered w' = delivered w ++ [msg]
        | Accepted (Some e) =>
            stdout w' = stdout w ++ ["Failed to send email: " +:+ exn_text e]
            ∧ delivered w' = delivered w ++ [msg]
        | Refused e =>
            stdout w' = stdout w ++ ["Failed to send email: " +:+ exn_text e]
            ∧ delivered w' = delivered w
        end.
Proof.
  unfold main. intros H.
  apply bind_returns in H as ([] & w1 & Hsnap & H).
  apply bind_returns in H as (data & w2 & Hload & H).
  apply bind_returns in H as ([] & w3 & Hgraph & H).
  apply snapshot_and_clear_inv in Hsnap as (content & Hc & Hne & ->).
  pose proof (load_and_process_pure P cfg
                (with_fs (λ m, <[original_file cfg := ""]>
                                 (<[copied_file cfg := content]> m)) w)) as Hpure.
  rewrite Hload in Hpure. simpl in Hpure. subst w2.
  apply generate_graph_returns in Hgraph as (fig & target & Htarget & ->).
  unfold notify_and_cleanup in H.
  apply bind_returns in H as ([] & w4 & Hsend & H).
  apply bind_returns in H as ([] & w5 & Hrm1 & Hrm2).
  apply os_remove_returns in Hrm1 as [_ ->].
  apply os_remove_returns in Hrm2 as [_ ->].
  unfold send_email, bind in Hsend. simpl in Hsend.
  unfold bind, read_file in Hsend. simpl in Hsend.
  destruct (_ !! graph_file cfg) as [img|] eqn:Himg; [|done].
  destruct (_ !! copied_file cfg) as [snap|] eqn:Hcopy; [|done].
  exists content, fig, target, img, snap. simpl.
  split_and!; [done..| |].
  - unfold try_except, smtp_session, print, ret in Hsend. simpl in Hsend.
    destruct (sendmail _ _ _ _ _ _) as [e|[e|]]; injection Hsend as <-; done.
  - unfold try_except, smtp_session, print, ret in Hsend. simpl in Hsend.
    destruct (sendmail _ _ _ _ _ _) as [e|[e|]]; injection Hsend as <-; done.
Qed.

(** ** The notifier *)

(** C8.  When the attachments have been read, [send_email] returns
    normally whatever the SMTP session does: a message the relay accepts is
    delivered; an exception raised by the session - while connecting or
    sending, or on closing after the message was accepted - is printed as
    "Failed to send email: ..." and goes no further.  The result of the
    whole run, and the files it leaves, are the same behind any relay. *)
Theorem C8_send_failure_is_logged_not_raised
    P subj bd attachments sender rcpt server port w :
  Forall (λ p, is_Some (fs w !! p)) attachments →
  (∃ parts,
     attach_files attachments [TextPart bd "plain"] w = (inr parts, w) ∧
     send_email P subj bd attachments sender rcpt server port w
     = (inr tt,
        match sendmail P server port sender rcpt (mkMessage sender rcpt subj parts) with
        | Accepted None =>
            mkWorld (fs w) (stdout w)
                    (delivered w ++ [mkMessage sender rcpt subj parts])
        | Accepted (Some e) =>
            mkWorld (fs w) (stdout w ++ ["Failed to send email: " +:+ exn_text e])
                    (delivered w ++ [mkMessage sender rcpt subj parts])
        | Refused e =>
            mkWorld (fs w) (stdout w ++ ["Failed to send email: " +:+ exn_text e])
                    (delivered w)
        end)) ∧
  (∀ relay cfg w0,
     (main (with_relay P relay) cfg w0).1 = (main P cfg w0).1 ∧
     fs (main (with_relay P relay) cfg w0).2 = fs (main P cfg w0).2).
Proof.
  intros Hall. split.
  - destruct (attach_files_readable attachments [TextPart bd "plain"] w Hall)
      as [parts Hparts].
    exists parts. split; [done|]. by apply send_email_after_attach.
  - intros relay cfg w0. apply main_relay.
Qed.

Lemma C8_witness :
  send_email reference_relay_down "s" "b" ["/var/nagios/service-perfdata"]
             "a@example.com" "b@example.com" "smtp.example.com" 25
             (world_with perfdata0)
  = (inr tt,
     mkWorld (fs (world_with perfdata0))
             ["Failed to send email: [Errno 111] Connection refused"] []) ∧
  (main reference_relay_down cfg0 (world_with perfdata0)).1 = inr tt.
Proof.
  assert (Forall (λ p, is_Some (fs (world_with perfdata0) !! p))
                 ["/var/nagios/service-perfdata"]) as Hall.
  { repeat constructor. vm_compute. eauto. }
  destruct (C8_send_failure_is_logged_not_raised reference_relay_down
              "s" "b" ["/var/nagios/service-perfdata"]
              "a@example.com" "b@example.com" "smtp.example.com" 25
              (world_with perfdata0) Hall) as [(parts & _ & Hsend) Hmain].
  split.
  - exact Hsend.
  - exact (eq_trans (eq_sym (proj1 (Hmain relay_accepts cfg0 (world_with perfdata0))))
                    (eq_refl : (main reference cfg0 (world_with perfdata0)).1 = inr tt)).
Defined.

(** C9.  An attachment that cannot be opened raises out of [send_email]
    before any SMTP session: the exception is the one of the first missing
    file, nothing is printed, nothing is sent; and the statements that
    follow the call in [main], the two removals, are not reached, so the
    world is exactly as it was. *)
Theorem C9_attachment_failure_propagates
    P subj bd attachments sender rcpt server port w :
  Exists (λ p, fs w !! p = None) attachments →
  (∃ p, p ∈ attachments ∧ fs w !! p = None
        ∧ send_email P subj bd attachments sender rcpt server port w
          = (inl (no_such_file p), w)) ∧
  (∀ cfg, attachments = [graph_file cfg; copied_file cfg] →
          ∃ p, p ∈ attachments
               ∧ notify_and_cleanup P cfg w = (inl (no_such_file p), w)).
Proof.
  intros Hex. split; [by apply send_email_unreadable|].
  intros cfg ->.
  destruct (send_email_unreadable P subject body _ (from_email cfg) (to_email cfg)
              (smtp_server cfg) (smtp_port cfg) w Hex) as (p & Hin & _ & Hrun).
  exists p. split; [done|].
  unfold notify_and_cleanup. by apply bind_raises_first.
Qed.

Lemma C9_witness :
  fs (world_with perfdata0) !! graph_file cfg0 = None ∧
  ∃ p, p ∈ [graph_file cfg0; copied_file cfg0]
       ∧ notify_and_cleanup reference cfg0 (world_with perfdata0)
         = (inl (no_such_file p), world_with perfdata0).
Proof.
  split; [reflexivity|].
  refine (proj2 (C9_attachment_failure_propagates reference subject body
                   [graph_file cfg0; copied_file cfg0]
                   (from_email cfg0) (to_email cfg0) (smtp_server cfg0)
                   (smtp_port cfg0) (world_with perfdata0) _) cfg0 eq_refl).
  apply Exists_cons_hd. reflexivity.
Defined.

(** A chart path without an extension: the image is saved next to it, line
    199 cannot open the configured path, and the run ends there with the
    snapshot and the image still on disk. *)
Lemma run_with_extensionless_chart :
  (main reference cfg_no_extension (world_with perfdata0)).1
    = inl (no_such_file "/tmp/temp") ∧
  map_to_list (fs (main reference cfg_no_extension (world_with perfdata0)).2)
    = [("/var/nagios/service-perfdata", "");
       ("/tmp/temp.png", "PNG:srv1;srv2;");
       ("/tmp/perfdata.copy", perfdata0)].
Proof. split; vm_compute; reflexivity. Qed.

(** ** Clean-up, snapshot and truncation *)

(** C3 (amended).  After a run that returns, no file is left at the
    configured snapshot path nor at the configured chart path, and this
    does not depend on the outcome of the send: behind any relay the same
    run returns and leaves neither file. *)
Theorem C3_completed_run_removes_its_files P cfg w w' :
  main P cfg w = (inr tt, w') →
  fs w' !! copied_file cfg = None ∧
  fs w' !! graph_file cfg = None ∧
  ∀ relay,
    (main (with_relay P relay) cfg w).1 = inr tt ∧
    fs (main (with_relay P relay) cfg w).2 !! copied_file cfg = None ∧
    fs (main (with_relay P relay) cfg w).2 !! graph_file cfg = None.
Proof.
  intros Hrun.
  assert (fs w' !! copied_file cfg = None ∧ fs w' !! graph_file cfg = None)
    as [Hcopy Hgraph].
  { destruct (main_returns P cfg w w' Hrun)
      as (content & fig & target & img & snap & _ & _ & _ & _ & _ & Hfs & _).
    rewrite Hfs. split; [|apply lookup_delete_eq].
    destruct (decide (graph_file cfg = copied_file cfg)) as [->|Hne].
    - apply lookup_delete_eq.
    - rewrite lookup_delete_ne by done. apply lookup_delete_eq. }
  split_and!; [done..|].
  intros relay. destruct (main_relay P relay cfg w) as [Hres Hfs].
  rewrite Hres, Hfs, Hrun. done.
Qed.

Lemma C3_witness :
  fs (main reference_relay_down cfg0 (world_with perfdata0)).2 !! copied_file cfg0 = None ∧
  fs (main reference_relay_down cfg0 (world_with perfdata0)).2 !! graph_file cfg0 = None.
Proof.
  destruct (C3_completed_run_removes_its_files reference_relay_down cfg0
              (world_with perfdata0)
              (main reference_relay_down cfg0 (world_with perfdata0)).2 eq_refl)
    as (Hcopy & Hgraph & _).
  split; [exact Hcopy | exact Hgraph].
Defined.

(** C3, as stated, fails: a run that ends in an exception after the copy
    leaves the snapshot it created on disk. *)
Lemma C3_counterexample :
  fs (world_with perfdata_wide) !! copied_file cfg0 = None ∧
  (main reference cfg0 (world_with perfdata_wide)).1
    = inl (too_many_fields 10 2 11) ∧
  fs (main reference cfg0 (world_with perfdata_wide)).2 !! copied_file cfg0
    = Some perfdata_wide.
Proof. split_and!; vm_compute; reflexivity. Qed.

(** C5 (amended).  The perfdata file is cleared after the copy and only
    then: when the copy raises - the file is missing, or the snapshot path
    is the file itself - the run ends with nothing changed.  What the file
    holds is parsed after the clearing: when the parser refuses it, the
    run ends with the file already empty and its content in the snapshot. *)
Theorem C5_clearing_follows_the_copy_only P cfg w :
  (fs w !! original_file cfg = None ∨ original_file cfg = copied_file cfg →
   ∃ e, main P cfg w = (inl e, w)) ∧
  (∀ content e,
     fs w !! original_file cfg = Some content →
     original_file cfg ≠ copied_file cfg →
     read_csv P content = inl e →
     main P cfg w
     = (inl e, with_fs (λ m, <[original_file cfg := ""]>
                               (<[copied_file cfg := content]> m)) w)).
Proof.
  split.
  - intros H. destruct (snapshot_and_clear_raises cfg w H) as [e He].
    exists e. unfold main. by apply bind_raises_first.
  - intros content e Hc Hne Hparse. unfold main.
    rewrite (bind_continues _ _ _ _ _ (snapshot_and_clear_returns cfg w content Hc Hne)).
    apply bind_raises_first.
    unfold load_and_process, bind, read_file, lift. simpl.
    rewrite lookup_insert_ne, lookup_insert_eq by done.
    by rewrite Hparse.
Qed.

Lemma C5_witness :
  (∃ e, main reference cfg0 (mkWorld ∅ [] []) = (inl e, mkWorld ∅ [] [])) ∧
  fs (main reference cfg0 (world_with perfdata_wide)).2
  = <[original_file cfg0 := ""]> (<[copied_file cfg0 := perfdata_wide]>
                                    (fs (world_with perfdata_wide))).
Proof.
  destruct (C5_clearing_follows_the_copy_only reference cfg0 (mkWorld ∅ [] []))
    as [Hmissing _].
  destruct (C5_clearing_follows_the_copy_only reference cfg0 (world_with perfdata_wide))
    as [_ Hshape].
  split.
  - apply Hmissing. left. reflexivity.
  - rewrite (Hshape perfdata_wide (too_many_fields 10 2 11)
               eq_refl ltac:(discriminate) eq_refl).
    reflexivity.
Defined.

(** C5, as stated, fails: an input of the wrong shape ends the run after
    the perfdata file has been cleared. *)
Lemma C5_counterexample :
  fs (world_with perfdata_wide) !! original_file cfg0 = Some perfdata_wide ∧
  (main reference cfg0 (world_with perfdata_wide)).1
    = inl (too_many_fields 10 2 11) ∧
  fs (main reference cfg0 (world_with perfdata_wide)).2 !! original_file cfg0
    = Some "".
Proof. split_and!; vm_compute; reflexivity. Qed.

(** C6 (amended).  Right after lines 171-175 the perfdata file is empty
    and the snapshot holds its former content, byte for byte.  After a run
    that returns the snapshot has been removed; the perfdata file is still
    empty when it is neither the chart path nor the file the chart was
    saved to; and, the chart not having been saved over the snapshot, the
    message handed to the relay carries the former content as its second
    attachment. *)
Theorem C6_cleared_original_and_snapshot P cfg w content :
  fs w !! original_file cfg = Some content →
  original_file cfg ≠ copied_file cfg →
  (∃ w1, snapshot_and_clear cfg w = (inr tt, w1)
         ∧ fs w1 !! original_file cfg = Some ""
         ∧ fs w1 !! copied_file cfg = Some content) ∧
  (∀ w' target,
     main P cfg w = (inr tt, w') →
     savefig_target P (graph_file cfg) = inr target →
     fs w' !! copied_file cfg = None ∧
     (original_file cfg ≠ graph_file cfg → original_file cfg ≠ target →
      fs w' !! original_file cfg = Some "") ∧
     (copied_file cfg ≠ target →
      ∃ img,
        let msg := mkMessage (from_email cfg) (to_email cfg) subject
                     [TextPart body "plain";
                      Attachment img (basename (graph_file cfg));
                      Attachment content (basename (copied_file cfg))] in
        match sendmail P (smtp_server cfg) (smtp_port cfg)
                       (from_email cfg) (to_email cfg) msg with
        | Accepted _ => delivered w' = delivered w ++ [msg]
        | Refused _ => delivered w' = delivered w
        end)).
Proof.
  intros Hc Hne. split.
  - eexists. split; [by apply snapshot_and_clear_returns|]. simpl. split.
    + apply lookup_insert_eq.
    + rewrite lookup_insert_ne by done. apply lookup_insert_eq.
  - intros w' target Hrun Htarget.
    destruct (main_returns P cfg w w' Hrun)
      as (content' & fig & target' & img & snap
          & Hc' & _ & Htarget' & Himg & Hsnap & Hfs & Hmail).
    assert (content' = content) as -> by congruence.
    assert (target' = target) as -> by congruence.
    split_and!.
    + rewrite Hfs. destruct (decide (graph_file cfg = copied_file cfg)) as [->|Hgc].
      * apply lookup_delete_eq.
      * rewrite lookup_delete_ne by done. apply lookup_delete_eq.
    + intros Hog Hot. rewrite Hfs.
      rewrite !lookup_delete_ne, lookup_insert_ne by done.
      apply lookup_insert_eq.
    + intros Hct.
      rewrite !lookup_insert_ne, lookup_insert_eq in Hsnap by done.
      injection Hsnap as <-. exists img. simpl.
      destruct (sendmail _ _ _ _ _ _) as [e|[e|]]; by destruct Hmail.
Qed.

Lemma C6_witness :
  (∃ w1, snapshot_and_clear cfg0 (world_with perfdata0) = (inr tt, w1)
         ∧ fs w1 !! original_file cfg0 = Some ""
         ∧ fs w1 !! copied_file cfg0 = Some perfdata0) ∧
  fs (main reference cfg0 (world_with perfdata0)).2 !! original_file cfg0 = Some "".
Proof.
  destruct (C6_cleared_original_and_snapshot reference cfg0 (world_with perfdata0)
              perfdata0 eq_refl ltac:(discriminate)) as [Hstep Hrun].
  split; [exact Hstep|].
  destruct (Hrun (main reference cfg0 (world_with perfdata0)).2 "/tmp/temp.png"
              eq_refl eq_refl) as (_ & Horig & _).
  apply Horig; discriminate.
Defined.

(** C6, as stated, fails: after a completed run the perfdata file is empty
    but there is no snapshot at the configured path; it was removed by
    line 202. *)
Lemma C6_counterexample :
  (main reference cfg0 (world_with perfdata0)).1 = inr tt ∧
  fs (main reference cfg0 (world_with perfdata0)).2 !! original_file cfg0 = Some "" ∧
  fs (main reference cfg0 (world_with perfdata0)).2 !! copied_file cfg0 = None.
Proof. split_and!; vm_compute; reflexivity. Qed.

(** ** The rows of the frame *)

Lemma zip_with_reading_raw (data : list RawRecord) (temps : list float)
    (dates : list Datetime) :
  length temps = length data → length dates = length data →
  map raw (zip_with (λ rt d, mkReading rt.1 rt.2 d) (zip data temps) dates) = data
  ∧ map Temperature (zip_with (λ rt d, mkReading rt.1 rt.2 d) (zip data temps) dates)
    = temps.
Proof.
  revert temps dates.
  induction data as [|r data IH]; intros [|t temps] [|d dates] Ht Hd;
    simpl in *; try done.
  destruct (IH temps dates) as [H1 H2]; [lia..|]. by rewrite H1, H2.
Qed.

(** The load step keeps one reading per record of the parsed file, in the
    order of the file, each with the temperature extracted from its own
    detail blob. *)
Lemma load_and_process_rows P cfg w readings w' :
  load_and_process P cfg w = (inr readings, w') →
  ∃ content data,
    fs w !! copied_file cfg = Some content
    ∧ read_csv P content = inr data
    ∧ map raw readings = data
    ∧ extract_temperatures (map Temperature_Detail data)
      = inr (map Temperature readings).
Proof.
  unfold load_and_process, bind, read_file, lift, ret.
  destruct (fs w !! copied_file cfg) as [content|]; [|done].
  destruct (read_csv P content) as [e|data] eqn:Hdata; [done|].
  destruct (extract_temperatures _) as [e|temps] eqn:Htemps; [done|].
  destruct (mapM _ _) as [e|dates] eqn:Hdates; [done|].
  intros [= <- <-]. exists content, data.
  assert (length temps = length data) as Hlt.
  { unfold extract_temperatures in Htemps.
    destruct (str_accessor _) as [e|col] eqn:Hacc; [done|].
    assert (col = map Temperature_Detail data) as ->.
    { unfold str_accessor in Hacc. destruct (map Temperature_Detail data);
        [by inversion Hacc|]. destruct (existsb _ _); by inversion Hacc. }
    apply mapM_length in Htemps. by rewrite Htemps, length_map. }
  assert (length dates = length data) as Hld.
  { apply mapM_length in Hdates. by rewrite Hdates, length_map. }
  destruct (zip_with_reading_raw data temps dates Hlt Hld) as [H1 H2].
  by rewrite H1, H2.
Qed.

(** The three-record scenario: the frame has three rows, the third with a
    missing temperature, and the line of [srv1] is drawn through all three,
    the last point being NaN. *)
Lemma three_record_scenario :
  ∃ data,
    (load_and_process reference cfg0
       (mkWorld {[ copied_file cfg0 := perfdata_scenario ]} [] [])).1 = inr data
    ∧ map Temperature data
      = [S754_finite false 5629499534213120 (-48);
         S754_finite false 5910974510923776 (-48);
         S754_nan]
    ∧ plot_hosts reference data (zip ["srv1"] ["blue"]) "Europe/Rome" []
      = inr [mkLine [mkAware (Some 1700000000000000000) "Europe/Rome";
                     mkAware (Some 1700000060000000000) "Europe/Rome";
                     mkAware (Some 1700000120000000000) "Europe/Rome"]
                    [S754_finite false 5629499534213120 (-48);
                     S754_finite false 5910974510923776 (-48);
                     S754_nan]
                    "srv1" "blue"].
Proof. eexists. split_and!; vm_compute; reflexivity. Qed.

(** * Properties of the surrounding code *)

(** ** The search of line 186, in full *)

Lemma strip_prefix_Some p s r : strip_prefix p s = Some r → s = p +:+ r.
Proof.
  revert s. induction p as [|a p IH]; intros s; simpl.
  - by intros [= ->].
  - destruct s as [|b s]; [done|].
    destruct (Ascii.eqb_spec a b) as [->|]; [|done].
    intros H. by rewrite (IH _ H).
Qed.

Lemma take_class_split s :
  ∃ post, s = take_class s +:+ post ∧ take_class post = "".
Proof.
  induction s as [|c s (post & Hs & Hpost)]; simpl.
  - by exists "".
  - destruct (in_class c) eqn:Hc.
    + exists post. split; [simpl; by rewrite <- Hs|done].
    + exists (String c s). split; [done|]. simpl. by rewrite Hc.
Qed.

Lemma match_at_extends a b g :
  match_at a = Some g → ∃ g', match_at (a +:+ b) = Some g'.
Proof.
  unfold match_at. rewrite strip_prefix_split.
  destruct (strip_prefix key a) as [r|]; [|done].
  destruct r as [|c r]; [done|]. simpl.
  destruct (in_class c); [eauto|done].
Qed.

Lemma match_at_Some s g :
  match_at s = Some g →
  ∃ post, s = key +:+ g +:+ post ∧ take_class post = "" ∧ g ≠ ""
          ∧ string_forallb in_class g = true.
Proof.
  unfold match_at. destruct (strip_prefix key s) as [r|] eqn:Hr; [|done].
  apply strip_prefix_Some in Hr as ->.
  destruct (take_class_split r) as (post & Hsplit & Hpost).
  pose proof (take_class_sound r) as Hcls.
  destruct (take_class r) as [|c t] eqn:Ht; [done|].
  intros [= <-]. exists post. by rewrite <- Hsplit.
Qed.

Lemma re_search_found s g :
  re_search s = Some g →
  ∃ pre post,
    s = pre +:+ key +:+ g +:+ post
    ∧ re_search pre = None
    ∧ g ≠ "" ∧ string_forallb in_class g = true
    ∧ take_class post = "".
Proof.
  revert g. induction s as [|c s IH]; intros g; rewrite re_search_unfold.
  - destruct (match_at "") eqn:Hm; [|done]. intros [= ->].
    destruct (match_at_Some _ _ Hm) as (post & Hs & _). discriminate Hs.
  - destruct (match_at (String c s)) as [g0|] eqn:Hm.
    + intros [= ->].
      destruct (match_at_Some _ _ Hm) as (post & Hs & Hpost & Hne & Hcls).
      exists "", post. by rewrite Hs.
    + intros Hrec.
      destruct (IH g Hrec) as (pre & post & -> & Hpre & Hne & Hcls & Hpost).
      exists (String c pre), post. split_and!; [done| |done..].
      rewrite re_search_unfold.
      destruct (match_at (String c pre)) as [g1|] eqn:Hm1; [|done].
      destruct (match_at_extends _ (key +:+ g +:+ post) _ Hm1) as [g' Hg'].
      discriminate (eq_trans (eq_sym Hm) Hg').
Qed.

(** X1.  What the pattern captures: [re_search] finds [g] in a text exactly
    when the text reads [pre ++ "Ambient_temperatureC=" ++ g ++ post] with
    [g] a non-empty run of digits and dots, [post] not continuing the run,
    and no match anywhere in [pre] - the leftmost occurrence of the key that
    is followed by a digit or a dot, and there the longest run. *)
Theorem X1_capture_is_leftmost_longest_run (s g : string) :
  re_search s = Some g ↔
  ∃ pre post,
    s = pre +:+ key +:+ g +:+ post
    ∧ re_search pre = None
    ∧ g ≠ "" ∧ string_forallb in_class g = true
    ∧ take_class post = "".
Proof.
  split; [apply re_search_found|].
  intros (pre & post & -> & Hpre & Hne & Hcls & Hpost).
  rewrite re_search_skips by done. by apply re_search_at_key.
Qed.

Lemma X1_witness : re_search "x Ambient_temperatureC=7.25;y" = Some "7.25".
Proof.
  apply (proj2 (X1_capture_is_leftmost_longest_run
                  "x Ambient_temperatureC=7.25;y" "7.25")).
  exists "x ", ";y". split_and!; [reflexivity|reflexivity|discriminate|reflexivity..].
Defined.

Lemma length_append (a b : string) :
  String.length (a +:+ b) = (String.length a + String.length b)%nat.
Proof. induction a; simpl; congruence. Qed.

Lemma re_search_step c s :
  match_at (String c s) = None → re_search (String c s) = re_search s.
Proof. intros H. rewrite re_search_unfold. by rewrite H. Qed.

(** A key with no digit or dot behind it is passed over. *)
Lemma re_search_key_without_value post :
  take_class post = "" → re_search (key +:+ post) = re_search post.
Proof.
  intros Hpost.
  assert (match_at (key +:+ post) = None) as Hm.
  { unfold match_at. by rewrite strip_prefix_app, Hpost. }
  unfold key in *. simpl String.append in *.
  rewrite re_search_step by exact Hm.
  do 20 (rewrite re_search_step by reflexivity).
  reflexivity.
Qed.

(** X2.  The missing-data marker.  A detail blob in which the key
    [Ambient_temperatureC=] does not occur gives the temperature NaN and no
    error; so does a blob in which the key occurs with no digit or dot
    behind it (the value is empty, or starts with another character) and
    the text around it has no match either. *)
Theorem X2_no_value_is_missing_not_an_error :
  (∀ s, ¬ occurs_in key s → extract_temperature (Str s) = inr S754_nan) ∧
  (∀ pre post,
     re_search pre = None → take_class post = "" → re_search post = None →
     extract_temperature (Str (pre +:+ key +:+ post)) = inr S754_nan).
Proof.
  split.
  - intros s Hno. unfold extract_temperature, str_extract.
    destruct (re_search s) as [g|] eqn:Hs; [|done].
    destruct (re_search_found s g Hs) as (pre & post & -> & _).
    destruct Hno. by exists pre, (g +:+ post).
  - intros pre post Hpre Hcls Hpost. unfold extract_temperature, str_extract.
    by rewrite re_search_skips, re_search_key_without_value, Hpost.
Qed.

Lemma X2_witness :
  extract_temperature (Str "no token") = inr S754_nan ∧
  extract_temperature (Str "fan=3 Ambient_temperatureC=;rpm=4") = inr S754_nan.
Proof.
  destruct X2_no_value_is_missing_not_an_error as [Habsent Hempty].
  split.
  - apply Habsent. intros (pre & post & H).
    apply (f_equal String.length) in H.
    rewrite !length_append in H. simpl in H. lia.
  - exact (Hempty "fan=3 " ";rpm=4" eq_refl eq_refl eq_refl).
Defined.

(** ** Which captures [float] refuses *)

Lemma digits_value_None s acc :
  string_forallb is_digit s = false → digits_value acc s = None.
Proof.
  revert acc. induction s as [|c s IH]; intros acc; simpl; [done|].
  destruct (is_digit c); simpl; [apply IH|done].
Qed.

Lemma class_digits_iff_no_dot r :
  string_forallb in_class r = true →
  (string_forallb is_digit r = true ↔ count_char is_dot r = 0%nat).
Proof.
  induction r as [|c r IH]; simpl; [done|].
  intros [Hc Hr]%andb_prop. specialize (IH Hr).
  unfold in_class in Hc. unfold is_dot at 1.
  destruct (is_digit c) eqn:Hd; simpl.
  - rewrite (is_digit_not_dot _ Hd). simpl. done.
  - simpl in Hc. rewrite Hc. simpl. split; [done|lia].
Qed.

Lemma count_digits_all r :
  string_forallb is_digit r = true → count_char is_digit r = String.length r.
Proof.
  induction r as [|c r IH]; simpl; [done|].
  intros [-> Hr]%andb_prop. by rewrite IH.
Qed.

Lemma cut_at_dot_class g :
  string_forallb in_class g = true →
  string_forallb is_digit (cut_at_dot g).1 = true
  ∧ string_forallb in_class (default "" (cut_at_dot g).2) = true
  ∧ count_char is_digit g
    = (String.length (cut_at_dot g).1
       + count_char is_digit (default "" (cut_at_dot g).2))%nat
  ∧ count_char is_dot g
    = match (cut_at_dot g).2 with
      | None => 0%nat
      | Some r => S (count_char is_dot r)
      end.
Proof.
  induction g as [|c g IH]; simpl; [done|].
  intros [Hc Hg]%andb_prop. specialize (IH Hg).
  unfold is_dot at 1. destruct (Ascii.eqb_spec c ".") as [->|Hne].
  - simpl. split_and!; done.
  - destruct (cut_at_dot g) as [ip fp]. simpl in *.
    destruct IH as (H1 & H2 & H3 & H4).
    assert (is_digit c = true) as Hd.
    { unfold in_class in Hc. apply orb_prop in Hc as [Hc|Hc]; [done|].
      by apply Ascii.eqb_eq in Hc. }
    rewrite Hd. simpl. split_and!; [done..|by rewrite H3|done].
Qed.

Lemma py_float_raises_iff g :
  string_forallb in_class g = true →
  (raises (py_float g)
   ↔ (2 ≤ count_char is_dot g)%nat ∨ count_char is_digit g = 0%nat).
Proof.
  intros Hg. destruct (cut_at_dot_class g Hg) as (Hip & Hfp & Hdig & Hdot).
  unfold py_float. destruct (cut_at_dot g) as [ip fp]. simpl in *.
  destruct (string_forallb is_digit (default "" fp)) eqn:Hfrac.
  - destruct (digits_value_total (ip +:+ default "" fp) 0) as [m Hm].
    { by rewrite string_forallb_app, Hip, Hfrac. }
    rewrite Hm. rewrite (count_digits_all _ Hfrac) in Hdig.
    assert (count_char is_dot g ≤ 1)%nat as Hle.
    { destruct fp as [r|]; simpl in *; [|lia].
      apply class_digits_iff_no_dot in Hfrac; [lia|done]. }
    destruct (Nat.eqb_spec (String.length ip + String.length (default "" fp)) 0)
      as [Hz|Hnz].
    + split; [intros _; right; lia|intros _; by eexists].
    + split; [by intros [e He]|intros [?|?]; lia].
  - rewrite digits_value_None
      by (by rewrite string_forallb_app, Hip, Hfrac).
    split; [intros _|intros _; by eexists]. left.
    destruct fp as [r|]; simpl in *; [|done].
    destruct (count_char is_dot r) eqn:Hr; [|lia].
    apply class_digits_iff_no_dot in Hr; [congruence|done].
Qed.

(** X3.  When the extraction raises.  The conversion of a cell raises
    (ValueError, ending the run) exactly when the pattern matches and the
    captured run holds two or more dots or no digit at all; every other
    cell converts. *)
Theorem X3_extraction_raises_iff_capture_is_no_number (c : Cell) :
  raises (extract_temperature c)
  ↔ ∃ s g, c = Str s ∧ re_search s = Some g
           ∧ ((2 ≤ count_char is_dot g)%nat ∨ count_char is_digit g = 0%nat).
Proof.
  unfold extract_temperature. split.
  - destruct c as [|s| | |]; simpl; try by intros [e He].
    destruct (re_search s) as [g|] eqn:Hs; simpl; [|by intros [e He]].
    intros Hr. exists s, g. split_and!; [done..|].
    apply py_float_raises_iff; [|done]. by apply (re_search_class s).
  - intros (s & g & -> & Hs & Hbad). simpl. rewrite Hs. simpl.
    apply py_float_raises_iff; [|done]. by apply (re_search_class s).
Qed.

Lemma X3_witness :
  raises (extract_temperature (Str "Ambient_temperatureC=21.5.;")).
Proof.
  apply (proj2 (X3_extraction_raises_iff_capture_is_no_number
                  (Str "Ambient_temperatureC=21.5.;"))).
  exists "Ambient_temperatureC=21.5.;", "21.5.".
  split_and!; [reflexivity..|]. left. simpl. lia.
Defined.

(** ** A converted temperature is never the missing marker *)

Lemma float_of_decimal_no_nan m k : float_of_decimal m k ≠ S754_nan.
Proof.
  unfold float_of_decimal, binary64_of.
  repeat (case_match; try done).
Qed.

Lemma py_float_no_nan g x : py_float g = inr x → x ≠ S754_nan.
Proof.
  unfold py_float. destruct (cut_at_dot g) as [ip fp].
  destruct (digits_value 0 _) as [m|]; [|done].
  destruct (_ =? _)%nat; [done|].
  intros [= <-]. apply float_of_decimal_no_nan.
Qed.

(** X4.  The temperature of a cell is the missing marker NaN exactly when
    the pattern finds nothing in it: a value that was captured and
    converted is never NaN, however large or small the number. *)
Theorem X4_missing_iff_no_match (s : string) (x : float) :
  extract_temperature (Str s) = inr x →
  (is_present x = false ↔ re_search s = None).
Proof.
  unfold extract_temperature, str_extract, astype_float.
  destruct (re_search s) as [g|] eqn:Hs.
  - intros Hx. pose proof (py_float_no_nan g x Hx) as Hnan.
    split; [|done]. by destruct x.
  - by intros [= <-].
Qed.

Lemma X4_witness :
  is_present (S754_finite false 6051711999279104 (-48)) = false
  ↔ re_search "Ambient_temperatureC=21.5" = None.
Proof.
  exact (X4_missing_iff_no_match "Ambient_temperatureC=21.5"
           (S754_finite false 6051711999279104 (-48)) eq_refl).
Defined.

(** ** Numbers with a bare dot *)

(** X5.  A captured run made of digits around one dot converts even when
    one side of the dot is empty: [21.] reads as 21, [.5] as 5/10.  Its
    value is the binary64 number nearest to the integer part plus the
    fraction, an empty side counting as zero - that number itself when it
    is a binary64 number. *)
Theorem X5_bare_dot_is_accepted (s : string) (ip frac : Decimal.uint) :
  re_search s = Some (numeral_text ip +:+ "." +:+ numeral_text frac) →
  ip ≠ Decimal.Nil ∨ frac ≠ Decimal.Nil →
  ∃ x, extract_temperature (Str s) = inr x
       ∧ nearest_to_decimal ip frac x
       ∧ ∀ y, is_decimal ip frac y → x = y.
Proof.
  intros Hs Hne. eexists.
  split; [|split; [apply nearest_of_decimal|intros y; apply nearest_is_exact,
                                                         nearest_of_decimal]].
  unfold extract_temperature, str_extract. rewrite Hs. simpl astype_float.
  change (numeral_text ip +:+ "." +:+ numeral_text frac)
    with (numeral_text ip +:+ String "." (numeral_text frac)).
  by apply py_float_fraction.
Qed.

Lemma X5_witness :
  (∃ x, extract_temperature (Str "Ambient_temperatureC=21.;") = inr x
        ∧ nearest_to_decimal (Decimal.D2 (Decimal.D1 Decimal.Nil)) Decimal.Nil x
        ∧ ∀ y, is_decimal (Decimal.D2 (Decimal.D1 Decimal.Nil)) Decimal.Nil y → x = y) ∧
  (∃ x, extract_temperature (Str "Ambient_temperatureC=.5;") = inr x
        ∧ nearest_to_decimal Decimal.Nil (Decimal.D5 Decimal.Nil) x
        ∧ ∀ y, is_decimal Decimal.Nil (Decimal.D5 Decimal.Nil) y → x = y).
Proof.
  assert (re_search "Ambient_temperatureC=21.;"
          = Some (numeral_text (Decimal.D2 (Decimal.D1 Decimal.Nil))
                  +:+ "." +:+ numeral_text Decimal.Nil)) as Hfirst
    by (vm_compute; reflexivity).
  assert (re_search "Ambient_temperatureC=.5;"
          = Some (numeral_text Decimal.Nil
                  +:+ "." +:+ numeral_text (Decimal.D5 Decimal.Nil))) as Hsecond
    by (vm_compute; reflexivity).
  split.
  - apply (X5_bare_dot_is_accepted _ _ _ Hfirst). left. discriminate.
  - apply (X5_bare_dot_is_accepted _ _ _ Hsecond). right. discriminate.
Defined.

(** The two values of the example: 21 and one half. *)
Lemma bare_dot_values :
  extract_temperature (Str "Ambient_temperatureC=21.;")
    = inr (S754_finite false 5910974510923776 (-48)) ∧
  extract_temperature (Str "Ambient_temperatureC=.5;")
    = inr (S754_finite false 4503599627370496 (-53)).
Proof. split; vm_compute; reflexivity. Qed.

(** ** The frame after the load step *)

Lemma readings_of_rows P (data : list RawRecord) temps dates :
  mapM extract_temperature (map Temperature_Detail data) = inr temps →
  mapM (to_datetime P) (map Timestamp data) = inr dates →
  let readings := zip_with (λ rt d, mkReading rt.1 rt.2 d) (zip data temps) dates in
  map raw readings = data
  ∧ Forall (λ r, extract_temperature (Temperature_Detail (raw r)) = inr (Temperature r)
                 ∧ to_datetime P (Timestamp (raw r)) = inr (Date r)) readings.
Proof.
  revert temps dates. induction data as [|r data IH]; intros temps dates; simpl.
  - intros [= <-] [= <-]. by split.
  - destruct (extract_temperature (Temperature_Detail r)) as [e|t] eqn:Ht; [done|].
    destruct (mapM extract_temperature _) as [e|ts] eqn:Hts; [done|].
    intros [= <-].
    destruct (to_datetime P (Timestamp r)) as [e|d] eqn:Hd; [done|].
    destruct (mapM (to_datetime P) _) as [e|ds] eqn:Hds; [done|].
    intros [= <-]. simpl.
    destruct (IH ts ds eq_refl eq_refl) as [Hraw Hall].
    split; [by rewrite Hraw|]. by constructor.
Qed.

(** X6.  The load step (lines 177-188) changes nothing in the world and,
    when it returns, has one reading per record of the parsed snapshot, in
    the order of the file; each reading carries the temperature extracted
    from its own detail blob and the date converted from its own
    timestamp. *)
Theorem X6_one_reading_per_record_in_order P cfg w readings w' :
  load_and_process P cfg w = (inr readings, w') →
  w' = w
  ∧ ∃ content data,
      fs w !! copied_file cfg = Some content
      ∧ read_csv P content = inr data
      ∧ map raw readings = data
      ∧ Forall (λ r, extract_temperature (Temperature_Detail (raw r))
                       = inr (Temperature r)
                     ∧ to_datetime P (Timestamp (raw r)) = inr (Date r)) readings.
Proof.
  intros Hrun. split.
  { pose proof (load_and_process_pure P cfg w) as Hw. by rewrite Hrun in Hw. }
  revert Hrun. unfold load_and_process, bind, read_file, lift, ret.
  destruct (fs w !! copied_file cfg) as [content|]; [|done].
  destruct (read_csv P content) as [e|data] eqn:Hdata; [done|].
  destruct (extract_temperatures _) as [e|temps] eqn:Htemps; [done|].
  destruct (mapM _ _) as [e|dates] eqn:Hdates; [done|].
  intros [= <- <-]. exists content, data. split_and!; [done..| |].
  all: unfold extract_temperatures in Htemps;
       destruct (str_accessor _) as [e|col] eqn:Hacc; [done|];
       assert (col = map Temperature_Detail data) as ->
         by (unfold str_accessor in Hacc; destruct (map Temperature_Detail data);
             [by inversion Hacc|]; destruct (existsb _ _); by inversion Hacc);
       by apply (readings_of_rows P data temps dates Htemps Hdates).
Qed.

Lemma X6_witness :
  ∃ content data,
    read_csv reference content = inr data
    ∧ map raw (loaded (load_and_process reference cfg0
                         (mkWorld {[ copied_file cfg0 := perfdata_scenario ]} [] [])).1)
      = data.
Proof.
  assert (load_and_process reference cfg0
            (mkWorld {[ copied_file cfg0 := perfdata_scenario ]} [] [])
          = (inr (loaded (load_and_process reference cfg0
                            (mkWorld {[ copied_file cfg0 := perfdata_scenario ]} [] [])).1),
             mkWorld {[ copied_file cfg0 := perfdata_scenario ]} [] [])) as Hrun.
  { vm_compute. reflexivity. }
  destruct (X6_one_reading_per_record_in_order reference cfg0 _ _ _ Hrun)
    as (_ & content & data & _ & Hdata & Hraw & _).
  exists content, data. split; [exact Hdata | exact Hraw].
Defined.

(** ** [str.split] on the host and colour options *)

Lemma append_assoc (a b c : string) : (a +:+ b) +:+ c = a +:+ (b +:+ c).
Proof. induction a as [|x a IH]; simpl; [done|]. by rewrite IH. Qed.

Lemma split_on_acc sep acc s :
  split_on sep acc s
  = match split_on sep "" s with
    | [] => []
    | h :: t => (acc +:+ h) :: t
    end.
Proof.
  revert acc. induction s as [|c s IH]; intros acc; simpl.
  - by rewrite append_nil_r.
  - destruct (Ascii.eqb c sep); [by rewrite append_nil_r|].
    rewrite (IH (acc +:+ String c "")), (IH (String c "")).
    destruct (split_on sep "" s) as [|h t]; [done|].
    by rewrite append_assoc.
Qed.

Lemma split_cons sep c s :
  split sep (String c s)
  = if Ascii.eqb c sep then "" :: split sep s
    else match split sep s with
         | [] => []
         | h :: t => String c h :: t
         end.
Proof.
  unfold split. simpl. destruct (Ascii.eqb c sep); [done|].
  by rewrite split_on_acc.
Qed.

Lemma split_nonempty sep s : split sep s ≠ [].
Proof.
  induction s as [|c s IH]; [done|]. rewrite split_cons.
  destruct (Ascii.eqb c sep); [done|]. by destruct (split sep s).
Qed.

(** X7.  [text.split(',')] (lines 168-169): joining the pieces with commas
    gives the text back; there is one more piece than there are commas, so
    never an empty list - an empty option is one host with the empty name;
    and no piece contains a comma. *)
Theorem X7_split_pieces (sep : ascii) (s : string) :
  join sep (split sep s) = s
  ∧ length (split sep s) = S (count_char (λ c, Ascii.eqb c sep) s)
  ∧ Forall (λ piece, count_char (λ c, Ascii.eqb c sep) piece = 0%nat) (split sep s).
Proof.
  induction s as [|c s (Hjoin & Hlen & Hall)]; [by repeat constructor|].
  rewrite split_cons. pose proof (split_nonempty sep s) as Hne. simpl.
  destruct (Ascii.eqb c sep) eqn:Hc.
  - apply Ascii.eqb_eq in Hc as ->. split_and!.
    + simpl. destruct (split sep s) as [|h t] eqn:Hs; [done|]. by rewrite Hjoin.
    + simpl. by rewrite Hlen.
    + by constructor.
  - destruct (split sep s) as [|h t] eqn:Hs; [done|]. split_and!.
    + simpl in *. destruct t; simpl in *; by rewrite <- Hjoin.
    + done.
    + apply Forall_cons in Hall as [Hh Ht]. constructor; [|done].
      simpl. by rewrite Hc.
Qed.

(** ** [os.path.basename] on the attachment names *)

Lemma count_char_app f (a b : string) :
  count_char f (a +:+ b) = (count_char f a + count_char f b)%nat.
Proof. induction a as [|c a IH]; simpl; [done|]. rewrite IH. lia. Qed.

Lemma basename_from_no_slash acc p :
  count_char is_slash p = 0%nat → basename_from acc p = acc +:+ p.
Proof.
  revert acc. induction p as [|c p IH]; intros acc; simpl.
  - by rewrite append_nil_r.
  - unfold is_slash at 1. destruct (Ascii.eqb c "/"); [done|]. simpl. intros Hp.
    rewrite IH by done. by rewrite append_assoc.
Qed.

Lemma basename_from_dir acc d n :
  basename_from acc (d +:+ String "/" n) = basename_from "" n.
Proof.
  revert acc. induction d as [|c d IH]; intros acc; simpl; [done|].
  destruct (Ascii.eqb c "/"); apply IH.
Qed.

Lemma basename_from_clean acc p :
  count_char is_slash acc = 0%nat → count_char is_slash (basename_from acc p) = 0%nat.
Proof.
  revert acc. induction p as [|c p IH]; intros acc Hacc; simpl; [done|].
  destruct (Ascii.eqb c "/") eqn:Hc; apply IH; [done|].
  rewrite count_char_app, Hacc. simpl. unfold is_slash. by rewrite Hc.
Qed.

(** X8.  The name an attachment gets (line 104): [basename] never holds a
    slash, is the whole path when the path has none, and is what follows
    the last slash - so files of the same name in different directories
    are attached under the same name. *)
Theorem X8_basename_is_the_last_component :
  (∀ p, count_char is_slash (basename p) = 0%nat) ∧
  (∀ n, count_char is_slash n = 0%nat → basename n = n) ∧
  (∀ d n, count_char is_slash n = 0%nat → basename (d +:+ "/" +:+ n) = n).
Proof.
  unfold basename. split_and!.
  - intros p. by apply basename_from_clean.
  - intros n Hn. by rewrite basename_from_no_slash.
  - intros d n Hn.
    change (d +:+ "/" +:+ n) with (d +:+ String "/" n).
    by rewrite basename_from_dir, basename_from_no_slash.
Qed.

Lemma X8_witness :
  basename ("/tmp/a" +:+ "/" +:+ "temp.png") = "temp.png" ∧
  basename ("/var/b" +:+ "/" +:+ "temp.png") = "temp.png".
Proof.
  destruct X8_basename_is_the_last_component as (_ & _ & Hdir).
  split; apply Hdir; reflexivity.
Defined.

(** ** The message [send_email] builds *)

Lemma attach_files_contents attachments contents parts w :
  Forall2 (λ p c, fs w !! p = Some c) attachments contents →
  attach_files attachments parts w
  = (inr (parts ++ zip_with Attachment contents (map basename attachments)), w).
Proof.
  intros Hall. revert parts.
  induction Hall as [|p c attachments contents Hp _ IH]; intros parts; simpl.
  - by rewrite app_nil_r.
  - unfold bind, read_file. rewrite Hp, IH. by rewrite <- app_assoc.
Qed.

(** X9.  The message of lines 90-105: sender, recipient and subject as
    given; first the body as plain text, then one attachment per listed
    path, in the order of the list, each with the bytes the file holds at
    the time of the call and named by the base name of its path.  With no
    attachment listed the message is the body alone. *)
Theorem X9_message_parts_follow_the_list
    P subj bd attachments contents sender rcpt server port w :
  Forall2 (λ p c, fs w !! p = Some c) attachments contents →
  let msg := mkMessage sender rcpt subj
               (TextPart bd "plain"
                :: zip_with Attachment contents (map basename attachments)) in
  send_email P subj bd attachments sender rcpt server port w
  = (inr tt,
     match sendmail P server port sender rcpt msg with
     | Accepted None => mkWorld (fs w) (stdout w) (delivered w ++ [msg])
     | Accepted (Some e) =>
         mkWorld (fs w) (stdout w ++ ["Failed to send email: " +:+ exn_text e])
                 (delivered w ++ [msg])
     | Refused e =>
         mkWorld (fs w) (stdout w ++ ["Failed to send email: " +:+ exn_text e])
                 (delivered w)
     end).
Proof.
  intros Hall msg.
  apply send_email_after_attach.
  by rewrite (attach_files_contents _ contents).
Qed.

Lemma X9_witness :
  send_email reference "s" "b" ["/var/nagios/service-perfdata"]
             "a@example.com" "b@example.com" "smtp.example.com" 25
             (world_with "data")
  = (inr tt,
     mkWorld (fs (world_with "data")) []
       [mkMessage "a@example.com" "b@example.com" "s"
          [TextPart "b" "plain"; Attachment "data" "service-perfdata"]]).
Proof.
  refine (X9_message_parts_follow_the_list reference "s" "b"
            ["/var/nagios/service-perfdata"] ["data"]
            "a@example.com" "b@example.com" "smtp.example.com" 25
            (world_with "data") _).
  repeat constructor.
Defined.

(** X10.  What [send_email] can do to the world, whether it returns or
    raises: it never creates, changes or removes a file; and either it
    leaves everything as it was (an attachment could not be read), or it
    has built one message from the sender, the recipient and the subject
    given and run one SMTP session for it: the relay has the message and
    nothing is printed; or the session raised before the relay accepted
    the message, one line is printed and nothing delivered; or closing the
    session raised after the relay accepted it, and one line is printed
    for a message that was delivered all the same. *)
Theorem X10_send_email_effects
    P subj bd attachments sender rcpt server port w :
  let w' := (send_email P subj bd attachments sender rcpt server port w).2 in
  fs w' = fs w ∧
  (w' = w
   ∨ ∃ msg,
       msg_from msg = sender ∧ msg_to msg = rcpt ∧ msg_subject msg = subj
       ∧ match sendmail P server port sender rcpt msg with
         | Accepted None =>
             stdout w' = stdout w ∧ delivered w' = delivered w ++ [msg]
         | Accepted (Some e) =>
             stdout w' = stdout w ++ ["Failed to send email: " +:+ exn_text e]
             ∧ delivered w' = delivered w ++ [msg]
         | Refused e =>
             stdout w' = stdout w ++ ["Failed to send email: " +:+ exn_text e]
             ∧ delivered w' = delivered w
         end).
Proof.
  intros w'. split; [apply send_email_fs|].
  unfold w', send_email, bind.
  assert (∀ parts, (attach_files attachments parts w).2 = w) as Hw.
  { induction attachments as [|p rest IH]; intros parts; simpl; [done|].
    unfold bind, read_file. destruct (fs w !! p); [apply IH|done]. }
  specialize (Hw [TextPart bd "plain"]).
  destruct (attach_files _ _ w) as [[e|parts] w1]; simpl in Hw; subst w1;
    [by left|].
  right. exists (mkMessage sender rcpt subj parts). split_and!; [done..|].
  unfold try_except, smtp_session, print.
  by destruct (sendmail _ _ _ _ _ _) as [e|[e|]].
Qed.

(** A relay that takes the message and fails on QUIT: the message is
    delivered and the failure line printed. *)
Lemma send_email_when_quit_fails :
  send_email reference_quit_fails "s" "b" ["/var/nagios/service-perfdata"]
             "a@example.com" "b@example.com" "smtp.example.com" 25
             (world_with "data")
  = (inr tt,
     mkWorld (fs (world_with "data"))
       ["Failed to send email: (421, b'Service not available')"]
       [mkMessage "a@example.com" "b@example.com" "s"
          [TextPart "b" "plain"; Attachment "data" "service-perfdata"]]).
Proof. vm_compute. reflexivity. Qed.

(** X11.  Which attachment is reported: when the files listed before a
    path can all be read and that path cannot, [send_email] raises the
    FileNotFoundError of that path - the first missing one in the order of
    the list - whatever follows it in the list. *)
Theorem X11_first_missing_attachment_is_reported
    P subj bd readable p rest sender rcpt server port w :
  Forall (λ q, is_Some (fs w !! q)) readable →
  fs w !! p = None →
  send_email P subj bd (readable ++ p :: rest) sender rcpt server port w
  = (inl (no_such_file p), w).
Proof.
  intros Hall Hp. unfold send_email.
  apply bind_raises_first. generalize [TextPart bd "plain"].
  induction Hall as [|q readable [c Hq] _ IH]; intros parts; simpl.
  - unfold bind, read_file. by rewrite Hp.
  - unfold bind at 1, read_file at 1. rewrite Hq. apply IH.
Qed.

Lemma X11_witness :
  send_email reference "s" "b"
             (["/var/nagios/service-perfdata"] ++ "/tmp/gone" :: ["/tmp/also-gone"])
             "a@example.com" "b@example.com" "smtp.example.com" 25
             (world_with "data")
  = (inl (no_such_file "/tmp/gone"), world_with "data").
Proof.
  refine (X11_first_missing_attachment_is_reported reference "s" "b"
            ["/var/nagios/service-perfdata"] "/tmp/gone" ["/tmp/also-gone"]
            "a@example.com" "b@example.com" "smtp.example.com" 25
            (world_with "data") _ eq_refl).
  repeat constructor. vm_compute. eauto.
Defined.

(** ** What [generate_graph] does to the world *)

(** X12.  [generate_graph] writes one file or none: when it returns, the
    world differs from the one before only by the file [savefig] wrote -
    created, or overwritten if it was there; when it raises (a plot call
    refused, a format refused) the world is exactly as before; it never
    prints and never sends. *)
Theorem X12_generate_graph_writes_one_file_or_none
    P data hosts colors graph_file tz w :
  match generate_graph P data hosts colors graph_file tz w with
  | (inl e, w') => w' = w
  | (inr _, w') =>
      ∃ fig target,
        savefig_target P graph_file = inr target
        ∧ plot_hosts P data (zip hosts colors) tz [] = inr (lines fig)
        ∧ title fig = "CED Temperature"
        ∧ w' = mkWorld (<[target := render P target fig]> (fs w))
                       (stdout w) (delivered w)
  end.
Proof.
  unfold generate_graph, bind, lift, write_file.
  destruct (plot_hosts _ _ _ _ _) as [e|drawn]; [done|].
  destruct (savefig_target P graph_file) as [e|target]; [done|].
  exists (mkFigure (10, 6) drawn "CED Temperature" "Time"
            ("Temperature (" +:+ degree_sign +:+ "C)") true true true), target.
  done.
Qed.

(** X13.  A plot call is made only for a host with rows.  Going through
    the zipped pairs in order, the first call that matplotlib refuses - a
    colour that is none, dates it cannot convert - makes [generate_graph]
    raise the exception of that call, with no file written; the pairs whose
    host has no rows, before or after it, make no call, so their colours
    are never looked at. *)
Theorem X13_first_refused_plot_call_raises
    P data hosts colors before host col after graph_file tz w e :
  zip hosts colors = before ++ (host, col) :: after →
  plots_accepted P data tz before →
  has_rows data (host, col) = true →
  plot_error P (lines_of data tz before) (series_of data tz (host, col)) = Some e →
  generate_graph P data hosts colors graph_file tz w = (inl e, w).
Proof.
  intros Hzip Hbefore Hrows Hrefused.
  unfold generate_graph. apply bind_raises_first. unfold lift.
  rewrite Hzip, plot_hosts_app by apply Hbefore. simpl.
  unfold has_rows in Hrows. unfold series_of in Hrefused.
  simpl in Hrows, Hrefused.
  destruct (host_rows data host) as [|r rows]; [done|].
  unfold plot. by rewrite Hrefused.
Qed.

Lemma X13_witness :
  generate_graph reference [reading_without_token "srv2" 1700000000]
    ["srv1"; "srv2"] ["no-such-colour"; "mauve-ish"] "/tmp/temp.png"
    "Europe/Rome" (world_with "data")
  = (inl (mkExn ValueError "'mauve-ish' is not a valid value for color"),
     world_with "data") ∧
  generate_graph reference [reading_without_date "srv1"]
    ["srv1"] ["blue"] "/tmp/temp.png" "Europe/Rome" (world_with "data")
  = (inl (mkExn ConversionError "Failed to convert value(s) to axis units"),
     world_with "data").
Proof.
  split.
  - refine (X13_first_refused_plot_call_raises reference
              [reading_without_token "srv2" 1700000000]
              ["srv1"; "srv2"] ["no-such-colour"; "mauve-ish"]
              [("srv1", "no-such-colour")] "srv2" "mauve-ish" []
              "/tmp/temp.png" "Europe/Rome" (world_with "data") _
              eq_refl _ eq_refl eq_refl).
    intros [|i] pair Hi Hrows; simpl in Hi; [|discriminate Hi].
    injection Hi as <-. discriminate Hrows.
  - refine (X13_first_refused_plot_call_raises reference
              [reading_without_date "srv1"] ["srv1"] ["blue"]
              [] "srv1" "blue" [] "/tmp/temp.png" "Europe/Rome"
              (world_with "data") _ eq_refl _ eq_refl eq_refl).
    intros i pair Hi. discriminate Hi.
Defined.

(** ** Whole runs *)



Lemma generate_graph_raises_unchanged P data hosts colors graph_file tz w e w' :
  generate_graph P data hosts colors graph_file tz w = (inl e, w') → w' = w.
Proof.
  unfold generate_graph, bind, lift, write_file.
  destruct (plot_hosts _ _ _ _ _); [by intros [= _ <-]|].
  destruct (savefig_target P graph_file); [by intros [= _ <-]|done].
Qed.





(** X15.  A run that fails between the snapshot and the mail.  Once lines
    171-175 have run, whatever raises before the chart is saved - the
    parser, the extraction (ValueError, AttributeError), the timestamp
    conversion, a refused plot call, a refused chart format - ends the run
    with that exception and with the world exactly as lines 171-175 left
    it: the perfdata file empty, its former content in the snapshot,
    nothing printed, nothing sent, no chart written. *)
Theorem X15_failure_after_snapshot_keeps_snapshot P cfg w content e :
  fs w !! original_file cfg = Some content →
  original_file cfg ≠ copied_file cfg →
  let w1 := with_fs (λ m, <[original_file cfg := ""]>
                            (<[copied_file cfg := content]> m)) w in
  ((load_and_process P cfg w1).1 = inl e
   ∨ ∃ data, (load_and_process P cfg w1).1 = inr data
             ∧ (generate_graph P data (split "," (hosts_list cfg))
                  (split "," (hosts_colors cfg)) (graph_file cfg)
                  "Europe/Rome" w1).1 = inl e) →
  main P cfg w = (inl e, w1).
Proof.
  intros Hc Hne w1 Hfail. unfold main.
  rewrite (bind_continues _ _ _ _ _ (snapshot_and_clear_returns cfg w content Hc Hne)).
  fold w1. unfold bind at 1.
  pose proof (load_and_process_pure P cfg w1) as Hpure.
  destruct (load_and_process P cfg w1) as [[e1|data] w1'] eqn:Hload;
    simpl in Hpure; subst w1'.
  - destruct Hfail as [[= ->]|(data & [=] & _)]. done.
  - destruct Hfail as [[=]|(data' & [= <-] & Hgraph)].
    unfold bind.
    destruct (generate_graph P data _ _ _ _ w1) as [[e2|[]] w2] eqn:Hg;
      simpl in Hgraph; [|done].
    injection Hgraph as ->.
    by rewrite (generate_graph_raises_unchanged _ _ _ _ _ _ _ _ _ Hg).
Qed.

Lemma X15_witness :
  main reference cfg0
       (world_with (perf_line "1700000000" "srv1" "Ambient_temperatureC=1.2.3"))
  = (inl (could_not_convert "1.2.3"),
     with_fs (λ m, <[original_file cfg0 := ""]>
                     (<[copied_file cfg0 :=
                          perf_line "1700000000" "srv1" "Ambient_temperatureC=1.2.3"]> m))
             (world_with (perf_line "1700000000" "srv1" "Ambient_temperatureC=1.2.3"))).
Proof.
  apply (X15_failure_after_snapshot_keeps_snapshot reference cfg0
           (world_with (perf_line "1700000000" "srv1" "Ambient_temperatureC=1.2.3"))
           (perf_line "1700000000" "srv1" "Ambient_temperatureC=1.2.3")
           (could_not_convert "1.2.3")).
  - reflexivity.
  - discriminate.
  - left. vm_compute. reflexivity.
Defined.

(** ** What a run prints and sends *)

Lemma send_email_outputs P subj bd attachments sender rcpt server port w :
  let w' := (send_email P subj bd attachments sender rcpt server port w).2 in
  (stdout w' = stdout w
   ∨ ∃ e, stdout w' = stdout w ++ ["Failed to send email: " +:+ exn_text e])
  ∧ (delivered w' = delivered w
     ∨ ∃ msg, delivered w' = delivered w ++ [msg]
              ∧ msg_from msg = sender ∧ msg_to msg = rcpt ∧ msg_subject msg = subj).
Proof.
  intros w'. unfold w', send_email, bind.
  assert (∀ parts, (attach_files attachments parts w).2 = w) as Hw.
  { induction attachments as [|p rest IH]; intros parts; simpl; [done|].
    unfold bind, read_file. destruct (fs w !! p); [apply IH|done]. }
  specialize (Hw [TextPart bd "plain"]).
  destruct (attach_files _ _ w) as [[e|parts] w1]; simpl in Hw; subst w1;
    [split; by left|].
  unfold try_except, smtp_session, print.
  destruct (sendmail _ _ _ _ _ _) as [e|[e|]]; simpl.
  - split; [right; by exists e|by left].
  - split; [right; by exists e|right; by eexists].
  - split; [by left|right; by eexists].
Qed.

Lemma os_remove_outputs p w :
  stdout (os_remove p w).2 = stdout w ∧ delivered (os_remove p w).2 = delivered w.
Proof. unfold os_remove. by destruct (fs w !! p). Qed.

Lemma snapshot_and_clear_outputs cfg w :
  stdout (snapshot_and_clear cfg w).2 = stdout w
  ∧ delivered (snapshot_and_clear cfg w).2 = delivered w.
Proof.
  unfold snapshot_and_clear, bind, copyfile, write_file.
  destruct (fs w !! original_file cfg); [|done]. by destruct (decide _).
Qed.

Lemma generate_graph_outputs P data hosts colors graph_file tz w :
  stdout (generate_graph P data hosts colors graph_file tz w).2 = stdout w
  ∧ delivered (generate_graph P data hosts colors graph_file tz w).2 = delivered w.
Proof.
  unfold generate_graph, bind, lift, write_file.
  destruct (plot_hosts _ _ _ _ _); [done|].
  by destruct (savefig_target P graph_file).
Qed.

(** X16.  One run, at most one message and at most one line of output.
    However a run ends, it has printed nothing or the single line
    "Failed to send email: ...", and it has handed the relay no message or
    exactly one, from the configured sender to the configured recipient
    under the subject of the report.  The two go together in every way: a
    session that raises on closing prints the line for a message that was
    delivered.  Nothing else in [main] prints or sends. *)
Theorem X16_at_most_one_message_and_one_log_line P cfg w :
  let w' := (main P cfg w).2 in
  (stdout w' = stdout w
   ∨ ∃ e, stdout w' = stdout w ++ ["Failed to send email: " +:+ exn_text e])
  ∧ (delivered w' = delivered w
     ∨ ∃ msg, delivered w' = delivered w ++ [msg]
              ∧ msg_from msg = from_email cfg ∧ msg_to msg = to_email cfg
              ∧ msg_subject msg = subject).
Proof.
  unfold main, bind.
  destruct (snapshot_and_clear_outputs cfg w) as [Hs1 Hd1].
  destruct (snapshot_and_clear cfg w) as [[e|[]] w1]; simpl in *.
  { split; by left. }
  pose proof (load_and_process_pure P cfg w1) as Hpure.
  destruct (load_and_process P cfg w1) as [[e|data] w1']; simpl in Hpure; subst w1'.
  { split; by left. }
  destruct (generate_graph_outputs P data (split "," (hosts_list cfg))
              (split "," (hosts_colors cfg)) (graph_file cfg) "Europe/Rome" w1)
    as [Hs2 Hd2].
  destruct (generate_graph P data _ _ _ _ w1) as [[e|[]] w2]; simpl in *.
  { split; left; congruence. }
  unfold notify_and_cleanup, bind.
  pose proof (send_email_outputs P subject body [graph_file cfg; copied_file cfg]
                (from_email cfg) (to_email cfg) (smtp_server cfg) (smtp_port cfg) w2)
    as Hsend.
  destruct (send_email P _ _ _ _ _ _ _ w2) as [rs w3]. simpl in Hsend.
  assert (stdout w2 = stdout w) as Hs by congruence.
  assert (delivered w2 = delivered w) as Hd by congruence.
  rewrite Hs, Hd in Hsend.
  destruct rs as [e|[]]; simpl; [exact Hsend|].
  destruct (os_remove_outputs (copied_file cfg) w3) as [Hs3 Hd3].
  destruct (os_remove (copied_file cfg) w3) as [[e|[]] w4]; simpl in *.
  { by rewrite Hs3, Hd3. }
  destruct (os_remove_outputs (graph_file cfg) w4) as [Hs4 Hd4].
  destruct (os_remove (graph_file cfg) w4) as [r5 w5]; simpl in *.
  assert (stdout w5 = stdout w3) as -> by congruence.
  assert (delivered w5 = delivered w3) as -> by congruence.
  by destruct r5.
Qed.

(** A run behind a relay that fails on QUIT: it returns, the message is
    delivered and the failure line printed. *)
Lemma run_when_quit_fails :
  (main reference_quit_fails cfg0 (world_with perfdata0)).1 = inr tt ∧
  stdout (main reference_quit_fails cfg0 (world_with perfdata0)).2
    = ["Failed to send email: (421, b'Service not available')"] ∧
  length (delivered (main reference_quit_fails cfg0 (world_with perfdata0)).2) = 1%nat.
Proof. split_and!; vm_compute; reflexivity. Qed.

(** X17.  Chart and snapshot on the same path.  When [graph_file] and
    [copied_file] are the same path no run returns normally: line 202
    removes the file and line 203 cannot remove it again (or an earlier
    statement has raised). *)
Theorem X17_same_chart_and_snapshot_path_never_returns P cfg w :
  graph_file cfg = copied_file cfg → (main P cfg w).1 ≠ inr tt.
Proof.
  intros Heq Hret.
  destruct (main P cfg w) as [r w'] eqn:Hrun. simpl in Hret. subst r.
  unfold main in Hrun.
  apply bind_returns in Hrun as ([] & w1 & _ & Hrun).
  apply bind_returns in Hrun as (data & w2 & _ & Hrun).
  apply bind_returns in Hrun as ([] & w3 & _ & Hrun).
  unfold notify_and_cleanup in Hrun.
  apply bind_returns in Hrun as ([] & w4 & _ & Hrun).
  apply bind_returns in Hrun as ([] & w5 & Hrm1 & Hrm2).
  apply os_remove_returns in Hrm1 as [_ ->].
  apply os_remove_returns in Hrm2 as [[c Hc] _].
  simpl in Hc. rewrite Heq, lookup_delete_eq in Hc. done.
Qed.

Lemma X17_witness :
  (main reference
        (mkConfig "/var/nagios/service-perfdata" "/tmp/temp.png" "/tmp/temp.png"
                  "/tmp/temp.xlsx" "smtp.example.com" 25 "nagios@example.com"
                  "team@example.com" "srv1,srv2" "blue,green")
        (world_with perfdata0)).1 ≠ inr tt.
Proof.
  apply X17_same_chart_and_snapshot_path_never_returns. reflexivity.
Defined.

(** ** Start-up *)

(** X18.  A configuration file that is not there.  [load_config] does not
    raise on a missing file - [config.read] skips it and the parser stays
    empty - so the run ends at line 158 with KeyError 'Paths', before any
    file is copied, cleared or written and with nothing printed or sent. *)
Theorem X18_missing_config_file_is_a_key_error L P config_file w :
  fs w !! config_file = None →
  run_script L P config_file w = (inl (KeyError "Paths"), w).
Proof.
  intros Hmissing. unfold run_script, load_config. by rewrite Hmissing.
Qed.

Lemma X18_witness :
  run_script sample_library reference "/etc/temp-monitor.ini" (world_with perfdata0)
  = (inl (KeyError "Paths"), world_with perfdata0).
Proof.
  apply X18_missing_config_file_is_a_key_error. reflexivity.
Defined.

(** With the sample configuration in place the script is the run of
    [main] on the options read. *)
Lemma run_script_sample :
  (run_script sample_library reference "/etc/temp-monitor.ini"
     (mkWorld {[ "/etc/temp-monitor.ini" := "[Paths]";
                 original_file cfg0 := perfdata0 ]} [] [])).1
  = inr (inr tt).
Proof. vm_compute. reflexivity. Qed.
